(** * Cyclone AI code review bot: a shallow embedding of the review pipeline

    Go strings are byte sequences; they are modelled as [string] (lists of
    8-bit [ascii]).  Go [int] indices are [Z], with [-1] for "not found" as
    [strings.Index] returns it, and slice expressions [s[i:j]] return
    [None] where Go panics with "slice bounds out of range". *)

From Stdlib Require Import String Ascii List ZArith Bool Lia.
Import ListNotations.
Open Scope string_scope.

(** ** The parts of Go's [strings] and [strconv] packages the bot uses *)
Module GoStrings.

Local Open Scope Z_scope.

(** [strings.HasPrefix] *)
Fixpoint HasPrefix (s p : string) : bool :=
  match p, s with
  | EmptyString, _ => true
  | String a p', String b s' => Ascii.eqb a b && HasPrefix s' p'
  | String _ _, EmptyString => false
  end.

(** First byte offset of [sep] in [s] (the scan behind [strings.Index]). *)
Fixpoint find (s sep : string) : option nat :=
  if HasPrefix s sep then Some 0%nat
  else match s with
       | EmptyString => None
       | String _ s' => option_map S (find s' sep)
       end.

(** Last byte offset of [sep] in [s] (the scan behind [strings.LastIndex]). *)
Fixpoint rfind (s sep : string) : option nat :=
  match s with
  | EmptyString => if HasPrefix s sep then Some 0%nat else None
  | String _ s' =>
      match rfind s' sep with
      | Some n => Some (S n)
      | None => if HasPrefix s sep then Some 0%nat else None
      end
  end.

(** [strings.Index]: the first index, or -1. *)
Definition Index (s sep : string) : Z :=
  match find s sep with Some n => Z.of_nat n | None => -1 end.

(** [strings.LastIndex]: the last index, or -1. *)
Definition LastIndex (s sep : string) : Z :=
  match rfind s sep with Some n => Z.of_nat n | None => -1 end.

Definition len (s : string) : Z := Z.of_nat (String.length s).

(** The slice expression [s[i:j]]; [None] is Go's bounds-check panic. *)
Definition slice (s : string) (i j : Z) : option string :=
  if (0 <=? i) && (i <=? j) && (j <=? len s)
  then Some (substring (Z.to_nat i) (Z.to_nat (j - i)) s)
  else None.

(** [s[i:]] *)
Definition slice_from (s : string) (i : Z) : option string := slice s i (len s).

(** [s[:j]] *)
Definition slice_to (s : string) (j : Z) : option string := slice s 0 j.

(** ASCII white space as [strings.TrimSpace] strips it (the [asciiSpace]
    table: tab, newline, vertical tab, form feed, carriage return, space).
    Multi-byte Unicode spaces are not modelled. *)
Definition is_space (c : ascii) : bool :=
  let n := nat_of_ascii c in
  (Nat.eqb n 9 || Nat.eqb n 10 || Nat.eqb n 11 || Nat.eqb n 12
   || Nat.eqb n 13 || Nat.eqb n 32)%bool.

Fixpoint trim_left (s : string) : string :=
  match s with
  | String c s' => if is_space c then trim_left s' else s
  | EmptyString => EmptyString
  end.

Fixpoint rev_str (s : string) : string :=
  match s with
  | EmptyString => EmptyString
  | String c s' => rev_str s' ++ String c EmptyString
  end.

(** [strings.TrimSpace] *)
Definition TrimSpace (s : string) : string :=
  rev_str (trim_left (rev_str (trim_left s))).

(** The text after the first occurrence of [sep] at offset [i]. *)
Definition after (s sep : string) (i : nat) : string :=
  substring (i + String.length sep) (String.length s) s.

Fixpoint split_fuel (fuel : nat) (s sep : string) : list string :=
  match fuel with
  | O => [s]
  | S f =>
      match find s sep with
      | None => [s]
      | Some i => substring 0 i s :: split_fuel f (after s sep i) sep
      end
  end.

(** [strings.Split] for a non-empty separator: every occurrence, left to
    right; each step consumes at least one byte, so [length s + 1] rounds
    always suffice. *)
Definition Split (s sep : string) : list string :=
  split_fuel (S (String.length s)) s sep.

(** [strings.SplitN] for [n > 0]: at most [n - 1] cuts, the rest of the
    string as the last part.  (Go's cap of [n] at [len(s)+1] only removes
    cuts that cannot occur.) *)
Definition SplitN (s sep : string) (n : nat) : list string :=
  split_fuel (Nat.pred n) s sep.

Definition digit_val (c : ascii) : option Z :=
  let n := nat_of_ascii c in
  if (48 <=? n)%nat && (n <=? 57)%nat then Some (Z.of_nat n - 48) else None.

Fixpoint digits_acc (acc : Z) (s : string) : option Z :=
  match s with
  | EmptyString => Some acc
  | String c s' =>
      match digit_val c with
      | Some d => digits_acc (10 * acc + d) s'
      | None => None
      end
  end.

(** [strconv.Atoi] on a 64-bit platform: an optional sign, then at least
    one decimal digit, and the value must fit an [int64]; [None] is the
    returned error. *)
Definition Atoi (s : string) : option Z :=
  let '(neg, body) :=
    match s with
    | String "-"%char r => (true, r)
    | String "+"%char r => (false, r)
    | _ => (false, s)
    end in
  match body with
  | EmptyString => None
  | _ =>
      match digits_acc 0 body with
      | None => None
      | Some v =>
          let v' := if neg then - v else v in
          if (- 2 ^ 63 <=? v') && (v' <? 2 ^ 63) then Some v' else None
      end
  end.

Fixpoint digits_of_nat (fuel n : nat) (acc : string) : string :=
  match fuel with
  | O => acc
  | S f =>
      let d := String (ascii_of_nat (48 + n mod 10)) EmptyString in
      if (n <? 10)%nat then d ++ acc else digits_of_nat f (n / 10) (d ++ acc)
  end.

(** The [%d] verb of [fmt.Sprintf] on an [int]. *)
Definition Itoa (z : Z) : string :=
  let n := Z.to_nat (Z.abs z) in
  (if z <? 0 then "-" else "") ++ digits_of_nat (S n) n "".

(** Substring containment ([strings.Contains]), used to state properties. *)
Definition Contains (s sub : string) : bool :=
  match find s sub with Some _ => true | None => false end.

(** Every byte of [s] satisfies [p]. *)
Fixpoint forall_chars (p : ascii -> bool) (s : string) : bool :=
  match s with
  | EmptyString => true
  | String c s' => p c && forall_chars p s'
  end.

(** [strings.HasSuffix] *)
Definition HasSuffix (s suffix : string) : bool :=
  (String.length suffix <=? String.length s)%nat
  && String.eqb (substring (String.length s - String.length suffix) (String.length suffix) s)
       suffix.

(** A byte below [utf8.RuneSelf]. *)
Definition is_ascii (c : ascii) : bool := (nat_of_ascii c <? 128)%nat.

(** The ASCII branch of [strings.ToLower]: ['A'..'Z'] shifted by 32. *)
Definition lower_ascii (c : ascii) : ascii :=
  let n := nat_of_ascii c in
  if (65 <=? n)%nat && (n <=? 90)%nat then ascii_of_nat (n + 32) else c.

Fixpoint map_bytes (f : ascii -> ascii) (s : string) : string :=
  match s with
  | EmptyString => EmptyString
  | String c s' => String (f c) (map_bytes f s')
  end.

Section ToLower.

(** [strings.Map(unicode.ToLower, s)]: the rune-wise path [strings.ToLower]
    takes when [s] has a byte outside ASCII. *)
Variable unicode_ToLower : string -> string.

(** [strings.ToLower] *)
Definition ToLower (s : string) : string :=
  if forall_chars is_ascii s then map_bytes lower_ascii s else unicode_ToLower s.

End ToLower.

End GoStrings.

(** ** Webhook trigger (internal/bot/webhook.go) *)
Module Webhook.
Import GoStrings.

(** The part of [github.PullRequest] the trigger reads: the optional
    [draft] field. *)
Record PullRequest := { Draft : option bool }.

(** [GetDraft] of [github.PullRequest]: [false] on a nil pull request or an
    absent field. *)
Definition GetDraft (pr : option PullRequest) : bool :=
  match pr with
  | Some p => match Draft p with Some b => b | None => false end
  | None => false
  end.

(** [shouldTriggerReview] *)
Definition shouldTriggerReview (action : string) (pr : option PullRequest) : bool :=
  if GetDraft pr then false
  else if String.eqb action "opened" then true
  else if String.eqb action "ready_for_review" then true
  else if String.eqb action "synchronize" then false
  else false.

Definition hex_digit (n : nat) : ascii :=
  match String.get n "0123456789abcdef" with Some c => c | None => "0"%char end.

(** [hex.EncodeToString]: two lower-case hex digits per byte. *)
Fixpoint EncodeToString (b : string) : string :=
  match b with
  | EmptyString => EmptyString
  | String c b' =>
      let n := nat_of_ascii c in
      String (hex_digit (n / 16)) (String (hex_digit (n mod 16)) (EncodeToString b'))
  end.

Section Signature.

(** [hmac.New(sha256.New, key)] followed by [Write(payload)] and [Sum(nil)]:
    the library's HMAC-SHA256, taken as a function from key and message to
    its 32-byte digest. *)
Variable hmac_sha256 : string -> string -> string.

(** [validateWebhookSignature], with [bot.config.GitHubWebhookSecret] as
    [secret]; [hmac.Equal] is byte-wise equality. *)
Definition validateWebhookSignature (secret payload signature : string) : bool :=
  if String.eqb signature "" then false
  else
    let signature :=
      if (7 <? len signature)%Z && String.eqb (substring 0 7 signature) "sha256="
      then substring 7 (String.length signature) signature
      else signature in
    let expectedMAC := EncodeToString (hmac_sha256 secret payload) in
    String.eqb signature expectedMAC.

End Signature.

End Webhook.

(** ** Tenant configuration (internal/config/provider.go, supabase.go) *)
Module TenantConfig.
Import GoStrings.

(** Rows of the three tables as the REST endpoint stores them.  The Go
    structs [Installation], [Organization] and [Repository] decode the
    columns listed here, except the parent keys [org_installation_id] and
    [repo_organization_id], which only the queries' filters read. *)
Record Installation := {
  inst_ID : Z;               (* id *)
  inst_InstallationID : Z    (* installation_id: the GitHub installation *)
}.

Record Organization := {
  org_ID : Z;
  org_Name : string;
  org_installation_id : Z    (* the parent Installation's [id] *)
}.

Record Repository := {
  repo_ID : Z;
  repo_Name : string;
  repo_Precision : string;
  repo_CustomPrompt : string;
  repo_organization_id : Z   (* the parent Organization's [id] *)
}.

Record Database := {
  installation : list Installation;
  organization : list Organization;
  repository : list Repository;
  (* The rows the REST endpoint returns for a repository query string in
     which the name is not plain (see [url_plain] below): PostgREST then
     reads the URL on its own terms (a '#' ends the query, a '&' starts a
     new parameter, '%' escapes are decoded), which is not modelled. *)
  repository_answer : string -> list Repository
}.

(** [RepositoryConfig] of the config package. *)
Record RepositoryConfig := {
  Name : string;
  Precision : string;
  CustomPrompt : string
}.

(** A Go [(value, error)] pair: exactly one of the two is meaningful. *)
Inductive result (A : Type) :=
| Ok : A -> result A
| Err : string -> result A.
Arguments Ok {A} _.
Arguments Err {A} _.

(** [GetInstallationByInstallationID]: query [installation_id=eq.<id>],
    first row or "installation not found".  A transport failure or a
    non-200 status also yields an error; the model is the store answering. *)
Definition GetInstallationByInstallationID (db : Database) (installationID : Z)
  : result Installation :=
  match filter (fun i => Z.eqb (inst_InstallationID i) installationID) (installation db) with
  | i :: _ => Ok i
  | [] => Err ("installation not found: " ++ Itoa installationID)
  end.

(** [GetOrganizationByInstallationAndName]: the query string is
    [installation_id=eq.<installationDBID>]; [orgName] only appears in the
    error message. *)
Definition GetOrganizationByInstallationAndName (db : Database)
  (installationDBID : Z) (orgName : string) : result (list Organization) :=
  match filter (fun o => Z.eqb (org_installation_id o) installationDBID) (organization db) with
  | [] => Err ("organization not found: " ++ orgName)
  | organizations => Ok organizations
  end.

(** The characters GitHub allows in a repository name: ASCII letters,
    digits, '-', '.' and '_'.  All of them are unreserved in a URL, so a
    name made of them reaches the endpoint unchanged. *)
Definition url_plain_char (c : ascii) : bool :=
  let n := nat_of_ascii c in
  ((48 <=? n) && (n <=? 57) || (65 <=? n) && (n <=? 90) || (97 <=? n) && (n <=? 122)
   || Nat.eqb n 45 || Nat.eqb n 46 || Nat.eqb n 95)%nat%bool.

Definition url_plain (s : string) : bool := forall_chars url_plain_char s.

(** The query string [fmt.Sprintf("organization_id=eq.%d&name=eq.%s", ...)];
    [buildRequest] appends it to the URL unescaped. *)
Definition repository_query (organizationID : Z) (repoName : string) : string :=
  "organization_id=eq." ++ Itoa organizationID ++ "&name=eq." ++ repoName.

(** [GetRepositoryByOrganizationAndName], first row of the answer.  For a
    plain name the query filters the rows of that organization with exactly
    that name; any other name is answered by [repository_answer]. *)
Definition GetRepositoryByOrganizationAndName (db : Database)
  (organizationID : Z) (repoName : string) : result Repository :=
  let rows :=
    if url_plain repoName then
      filter (fun r => Z.eqb (repo_organization_id r) organizationID
                       && String.eqb (repo_Name r) repoName) (repository db)
    else repository_answer db (repository_query organizationID repoName) in
  match rows with
  | r :: _ => Ok r
  | [] => Err ("repository not found: " ++ repoName)
  end.

(** [GetRepositoryConfig] of [SupabaseProvider] *)
Definition GetRepositoryConfig (db : Database) (orgName repoName : string)
  (installationID : Z) : result RepositoryConfig :=
  match GetInstallationByInstallationID db installationID with
  | Err e => Err ("installation not found for installation_id " ++ Itoa installationID
                  ++ ": " ++ e)
  | Ok inst =>
      match GetOrganizationByInstallationAndName db (inst_ID inst) orgName with
      | Err e => Err ("organization '" ++ orgName ++ "' not found for installation "
                      ++ Itoa installationID ++ ": " ++ e)
      | Ok organizations =>
          (* organizations[0]: the query never returns an empty list here *)
          match organizations with
          | [] => Err "index out of range"
          | o :: _ =>
              match GetRepositoryByOrganizationAndName db (org_ID o) repoName with
              | Err e => Err ("repository '" ++ repoName ++ "' not found in organization '"
                              ++ orgName ++ "': " ++ e)
              | Ok r => Ok {| Name := repo_Name r; Precision := repo_Precision r;
                              CustomPrompt := repo_CustomPrompt r |}
              end
          end
      end
  end.

End TenantConfig.

(** ** File-based repository configuration (main.go) *)
Module FileConfig.

Record RepositoryConfig := {
  Name : string;
  Precision : string;
  CustomPrompt : string
}.

Record OrganizationConfig := {
  OrgName : string;
  Repositories : list RepositoryConfig
}.

Record ReviewConfig := { Organizations : list OrganizationConfig }.

(** The first entry of a list satisfying a test: a Go [for ... range] loop
    with [return] inside. *)
Fixpoint first_match {A} (p : A -> bool) (l : list A) : option A :=
  match l with
  | [] => None
  | x :: l' => if p x then Some x else first_match p l'
  end.

(** One organization's body of the outer loop of [getRepositoryConfig]. *)
Definition lookup_in_org (org : OrganizationConfig) (repoName : string)
  : option RepositoryConfig :=
  match first_match (fun repo => String.eqb (Name repo) repoName) (Repositories org) with
  | Some repo => Some repo
  | None =>
      first_match (fun repo => String.eqb (Name repo) "*" || String.eqb (Name repo) "default")
        (Repositories org)
  end.

Fixpoint getRepositoryConfig_orgs (orgs : list OrganizationConfig) (owner repoName : string)
  : option RepositoryConfig :=
  match orgs with
  | [] => None
  | org :: orgs' =>
      if String.eqb (OrgName org) owner then
        match lookup_in_org org repoName with
        | Some repo => Some repo
        | None => getRepositoryConfig_orgs orgs' owner repoName
        end
      else getRepositoryConfig_orgs orgs' owner repoName
  end.

(** [getRepositoryConfig] of [CycloneBot]; [None] is the nil pointer. *)
Definition getRepositoryConfig (cfg : ReviewConfig) (owner repoName : string)
  : option RepositoryConfig :=
  getRepositoryConfig_orgs (Organizations cfg) owner repoName.

End FileConfig.

(** ** Size gate (main.go) *)
Module SizeGate.
Import GoStrings.
Local Open Scope Z_scope.

(** The hard limits and the warning thresholds of main.go. *)
Definition MAX_FILES_FOR_REVIEW : Z := 25.
Definition MAX_ADDITIONS_FOR_REVIEW : Z := 800.
Definition MAX_TOTAL_CHANGES : Z := 1200.
Definition WARN_FILES_THRESHOLD : Z := 20.
Definition WARN_ADDITIONS_THRESHOLD : Z := 400.

(** The aggregate counts of [github.PullRequest] the gate reads
    ([GetChangedFiles], [GetAdditions], [GetDeletions]; 0 when absent). *)
Record PullRequest := {
  ChangedFiles : Z;
  Additions : Z;
  Deletions : Z
}.

Record PRSizeCheck := {
  ShouldReview : bool;
  WarningMessage : string;
  SkipMessage : string
}.

(** Go [int] addition on a 64-bit platform (two's complement wrap-around). *)
Definition add_int (a b : Z) : Z :=
  let s := (a + b) mod 2 ^ 64 in
  if s >=? 2 ^ 63 then s - 2 ^ 64 else s.

(** The double-quote byte, spliced into the messages below. *)
Definition dq : string := String (ascii_of_nat 34) EmptyString.

Definition files_skip_message (files : Z) : string :=
  "## ğŸŒªï¸ Cyclone Notice

**PR Too Large for Automated Review**

This PR modifies **"
  ++ Itoa files
  ++ " files**, which exceeds our limit of "
  ++ Itoa MAX_FILES_FOR_REVIEW
  ++ " files for automated review.

**Why we skip large PRs:**
- ğŸ¯ **Review Quality**: Large PRs are harder to review thoroughly
- ğŸ§  **Cognitive Load**: Smaller PRs are easier for humans to understand
- ğŸ› **Bug Detection**: Issues are easier to spot in focused changes
- ğŸš€ **Faster Iteration**: Smaller PRs get merged faster

**Suggestions:**
- Consider breaking this into smaller, focused PRs
- Each PR should ideally change < 15 files and < 400 lines
- Group related changes together (e.g., " ++ dq ++ "Add user authentication" ++ dq ++ ", " ++ dq ++ "Update API endpoints" ++ dq ++ ")

*Happy to review once split into smaller chunks!* ğŸŒªï¸".

Definition additions_skip_message (additions : Z) : string :=
  "## ğŸŒªï¸ Cyclone Notice

**PR Too Large for Automated Review**

This PR adds **"
  ++ Itoa additions
  ++ " lines**, which exceeds our limit of "
  ++ Itoa MAX_ADDITIONS_FOR_REVIEW
  ++ " lines for automated review.

**Large PRs are challenging because:**
- ğŸ” **Review Thoroughness**: Hard to catch all issues in large changes
- â±ï¸ **Review Time**: Takes much longer to review properly  
- ğŸ¤” **Context Switching**: Difficult to keep all changes in mind
- ğŸ”„ **Merge Conflicts**: Larger PRs are more likely to conflict

**Best Practices:**
- Aim for PRs with < 400 lines of additions
- Split features into logical, reviewable chunks
- Consider feature flags for large features

*Ready to provide detailed feedback on smaller PRs!* ğŸŒªï¸".

Definition total_skip_message (totalChanges additions deletions : Z) : string :=
  "## ğŸŒªï¸ Cyclone Notice

**PR Too Large for Automated Review**

This PR has **"
  ++ Itoa totalChanges
  ++ " total changes** (+"
  ++ Itoa additions
  ++ ", -"
  ++ Itoa deletions
  ++ "), exceeding our limit of "
  ++ Itoa MAX_TOTAL_CHANGES
  ++ " changes.

**Recommendation**: Break this into smaller, focused PRs for better review quality and faster merge times.

*Each PR should tell a focused story about one specific change.* ğŸŒªï¸".

Definition files_warning (files : Z) : string :=
  "ğŸ“ **"
  ++ Itoa files
  ++ " files changed** (consider < "
  ++ Itoa WARN_FILES_THRESHOLD
  ++ ")".

Definition additions_warning (additions : Z) : string :=
  "ğŸ“ˆ **"
  ++ Itoa additions
  ++ " lines added** (consider < "
  ++ Itoa WARN_ADDITIONS_THRESHOLD
  ++ ")".

(** [strings.Join] *)
Fixpoint Join (l : list string) (sep : string) : string :=
  match l with
  | [] => ""
  | [x] => x
  | x :: l' => x ++ sep ++ Join l' sep
  end.

(** [checkPRSize] of [CycloneBot] in main.go *)
Definition checkPRSize (pr : PullRequest) : PRSizeCheck :=
  let files := ChangedFiles pr in
  let additions := Additions pr in
  let deletions := Deletions pr in
  let totalChanges := add_int additions deletions in
  if files >? MAX_FILES_FOR_REVIEW then
    {| ShouldReview := false; WarningMessage := "";
       SkipMessage := files_skip_message files |}
  else if additions >? MAX_ADDITIONS_FOR_REVIEW then
    {| ShouldReview := false; WarningMessage := "";
       SkipMessage := additions_skip_message additions |}
  else if totalChanges >? MAX_TOTAL_CHANGES then
    {| ShouldReview := false; WarningMessage := "";
       SkipMessage := total_skip_message totalChanges additions deletions |}
  else
    let warnings :=
      ((if files >? WARN_FILES_THRESHOLD then [files_warning files] else [])
       ++ (if additions >? WARN_ADDITIONS_THRESHOLD then [additions_warning additions] else []))%list in
    let warningMessage :=
      match warnings with
      | [] => ""
      | _ => "**âš ï¸ Large PR Warning:**
" ++ Join warnings (String (ascii_of_nat 10) EmptyString)
             ++ "

*Smaller PRs are easier to review thoroughly and merge faster.*

---"
      end in
    {| ShouldReview := true; WarningMessage := warningMessage; SkipMessage := "" |}.

End SizeGate.

(** ** Review protocol engine: parsing the model's answer (main.go) *)
Module Parser.
Import GoStrings.
Local Open Scope Z_scope.

(** Go's runtime panics are [None]: [let*] threads them through. *)
Notation "'let*' x := e 'in' f" :=
  (match e with Some x => f | None => None end)
  (at level 200, x name, e at level 100, f at level 200).

Definition nl : string := String (ascii_of_nat 10) EmptyString.

Record ReviewComment := {
  Path : string;
  Line : Z;
  Body : string;
  Side : string
}.

Record ReviewResult := {
  Summary : string;
  Comments : list ReviewComment
}.

(** [(bot).extractSection] *)
Definition extractSection (text sectionHeader : string) : option string :=
  let startIndex := Index text sectionHeader in
  if startIndex =? -1 then Some "" else
  let* rest := slice_from text startIndex in
  let delimStart := Index rest "$$" in
  if delimStart =? -1 then Some "" else
  let delimStart := delimStart + startIndex + 2 in
  let* rest2 := slice_from text delimStart in
  let delimEnd := Index rest2 "$$" in
  if delimEnd =? -1 then Some "" else
  let delimEnd := delimEnd + delimStart in
  let* content := slice text delimStart delimEnd in
  Some (TrimSpace content).

(** [(bot).parsePRCommentBlock]: [Some None] is the nil comment, [None] a
    panic. *)
Definition parsePRCommentBlock (block : string) : option (option ReviewComment) :=
  let startDelim := Index block "$$" in
  if startDelim =? -1 then Some None else
  let endDelim := LastIndex block "$$" in
  if (endDelim =? -1) || (endDelim <=? startDelim) then Some None else
  let* header := slice_to block startDelim in
  let header := TrimSpace header in
  let* content := slice block (startDelim + 2) endDelim in
  let content := TrimSpace content in
  let parts := SplitN header ":" 3 in
  match parts with
  | p0 :: p1 :: p2 :: _ =>
      let file := TrimSpace p0 in
      let lineNumStr := TrimSpace p1 in
      let categoryPart := TrimSpace p2 in
      match Atoi lineNumStr with
      | None => Some None
      | Some lineNum =>
          Some (Some {| Path := file; Line := lineNum; Side := "RIGHT";
                        Body := categoryPart ++ nl ++ nl ++ content |})
      end
  | _ => Some None
  end.

(** The loop [for i := 1; i < len(parts); i++] of [parseClaudeResponse]. *)
Fixpoint parse_blocks (blocks : list string) : option (list ReviewComment) :=
  match blocks with
  | [] => Some []
  | b :: bs =>
      let* comment := parsePRCommentBlock b in
      let* rest := parse_blocks bs in
      match comment with
      | Some c => Some (c :: rest)
      | None => Some rest
      end
  end.

Definition poem_header : string := "" ++ nl ++ "" ++ nl ++ "---" ++ nl ++ "" ++ nl ++ "**And now, a little poem about your changes ğŸŒªï¸âœ¨**" ++ nl ++ "".

Definition branding : string := "## ğŸŒªï¸ Cyclone AI Code Review" ++ nl ++ "" ++ nl ++ "".

(** [(bot).parseClaudeResponse]; the [diff] argument is unused. *)
Definition parseClaudeResponse (claudeText diff : string) : option ReviewResult :=
  let* summary := extractSection claudeText "SUMMARY:" in
  let* poem := extractSection claudeText "POEM:" in
  let parts := Split claudeText "PR_COMMENT:" in
  let* comments := parse_blocks (tl parts) in
  let finalSummary := if String.eqb poem "" then summary else summary ++ poem_header ++ poem in
  let finalSummary := branding ++ finalSummary in
  Some {| Summary := finalSummary; Comments := comments |}.

End Parser.

(** ** Calling the model (main.go) *)
Module Claude.
Local Open Scope Z_scope.

(** [RepositoryConfig] of main.go, as far as the call reads it. *)
Record RepositoryConfig := {
  Precision : string;
  CustomPrompt : string
}.

Record ClaudeRequest := {
  Model : string;
  MaxTokens : Z;
  Role : string;
  Content : string
}.

(** What [client.Do] and the decoding of the body give back: a transport
    error, or a status code with either a decoding error ([None]) or the
    [text] fields of the decoded [content] array. *)
Inductive http_outcome :=
| NetworkError
| Response (StatusCode : Z) (decoded : option (list string)).

Section Call.

(** The [fmt.Sprintf] prompt template of [callClaudeAPIWithConfig], applied
    to title, description, precision guidelines, diff and custom prompt. *)
Variable prompt : string -> string -> string -> string -> string -> string.

(** The precision guideline text ([getPrecisionGuidelines]). *)
Variable getPrecisionGuidelines : string -> string.

(** The HTTP exchange with the messages endpoint (30 s client timeout). *)
Variable send : ClaudeRequest -> http_outcome.

Definition request (diff title body : string) (cfg : RepositoryConfig) : ClaudeRequest :=
  {| Model := "claude-3-5-sonnet-20241022"; MaxTokens := 8000; Role := "user";
     Content := prompt title body (getPrecisionGuidelines (Precision cfg)) diff
                  (CustomPrompt cfg) |}.

(** [callClaudeAPIWithConfig].  [json.Marshal] of this request and
    [http.NewRequest] on the constant URL cannot fail and are not modelled. *)
Definition callClaudeAPIWithConfig (diff title body : string) (cfg : RepositoryConfig)
  : string :=
  match send (request diff title body cfg) with
  | NetworkError => "Error generating AI review"
  | Response code decoded =>
      if negb (code =? 200) then "Error generating AI review"
      else match decoded with
           | None => "Error generating AI review"
           | Some (text :: _) => text
           | Some [] => "No response from Claude"
           end
  end.

End Call.

End Claude.

(** ** Installation authentication (internal/review/github_app_auth.go and
    the bot's [New] and [createInstallationClient]) *)
Module Auth.
Import TenantConfig.
Local Open Scope Z_scope.

Record Config := {
  GitHubToken : string;
  GitHubAppID : Z;
  GitHubPrivateKeyPath : string
}.

(** The outside world the authenticator touches: the key file, the PEM
    and PKCS#1 decoders, RS256 signing of the app's assertion, and the
    token-issuance endpoint.  [None] is a returned error. *)
Record Env := {
  ReadFile : string -> option string;
  pem_Decode : string -> option string;
  ParsePKCS1PrivateKey : string -> option string;
  SignRS256 : Z -> string -> option string;
  CreateInstallationToken : string -> Z -> option string
}.

Record GitHubAppAuth := { appID : Z; privateKey : string }.

(** Modelled from the spec: [review.NewGitHubClient] is not under src/.
    The platform client is built from one bearer credential, the static
    personal-access token or an installation token (4.2); building it is
    taken to succeed and to keep that credential. *)
Record GitHubClient := { credential : string }.
Definition NewGitHubClient (token : string) : result GitHubClient :=
  Ok {| credential := token |}.

Record CycloneBot := {
  githubClient : GitHubClient;
  githubApp : option GitHubAppAuth   (* nil when not initialised *)
}.

(** [NewGitHubAppAuth] *)
Definition NewGitHubAppAuth (env : Env) (id : Z) (privateKeyPath : string)
  : result GitHubAppAuth :=
  match ReadFile env privateKeyPath with
  | None => Err "failed to read private key"
  | Some keyData =>
      match pem_Decode env keyData with
      | None => Err "failed to decode PEM block"
      | Some block =>
          match ParsePKCS1PrivateKey env block with
          | None => Err "failed to parse private key"
          | Some key => Ok {| appID := id; privateKey := key |}
          end
      end
  end.

(** [GenerateJWT] followed by the token exchange: [GetInstallationToken]. *)
Definition GetInstallationToken (env : Env) (auth : GitHubAppAuth) (installationID : Z)
  : result string :=
  match SignRS256 env (appID auth) (privateKey auth) with
  | None => Err "failed to generate JWT"
  | Some jwt =>
      match CreateInstallationToken env jwt installationID with
      | None => Err "failed to create installation token"
      | Some token => Ok token
      end
  end.

(** [bot.New]: a failing [NewGitHubAppAuth] is logged and [githubApp]
    keeps the nil it returned. *)
Definition New (env : Env) (cfg : Config) : result CycloneBot :=
  match NewGitHubClient (GitHubToken cfg) with
  | Err e => Err ("failed to create GitHub client: " ++ e)
  | Ok client =>
      let githubApp :=
        if negb (GitHubAppID cfg =? 0) && negb (String.eqb (GitHubPrivateKeyPath cfg) "")
        then match NewGitHubAppAuth env (GitHubAppID cfg) (GitHubPrivateKeyPath cfg) with
             | Ok a => Some a
             | Err _ => None
             end
        else None in
      Ok {| githubClient := client; githubApp := githubApp |}
  end.

(** [createInstallationClient] *)
Definition createInstallationClient (env : Env) (bot : CycloneBot) (installationID : Z)
  : result GitHubClient :=
  match githubApp bot with
  | None => Ok (githubClient bot)
  | Some app =>
      match GetInstallationToken env app installationID with
      | Err e => Err ("failed to get installation token: " ++ e)
      | Ok token => NewGitHubClient token
      end
  end.

Inductive review_step :=
| Aborted (err : string)
| ReviewWith (client : GitHubClient).

(** The authentication step of [ProcessPullRequest] (after the tenant and
    size checks): an error is logged and the PR is left unreviewed. *)
Definition ProcessPullRequest_auth (env : Env) (bot : CycloneBot) (installationID : Z)
  : review_step :=
  match createInstallationClient env bot installationID with
  | Err e => Aborted e
  | Ok c => ReviewWith c
  end.

End Auth.

(** ** Collecting the diff (main.go) *)
Module PRDiff.
Import GoStrings TenantConfig.
Local Open Scope Z_scope.

Definition binaryExtensions : list string :=
  [".png"; ".jpg"; ".jpeg"; ".gif"; ".ico"; ".svg";
   ".pdf"; ".zip"; ".tar"; ".gz"; ".bz2"; ".xz";
   ".exe"; ".dll"; ".so"; ".dylib";
   ".woff"; ".woff2"; ".ttf"; ".eot";
   ".mp3"; ".mp4"; ".avi"; ".mov";
   ".class"; ".jar"; ".war"].

(** The fields of [github.CommitFile] the loop reads ([GetFilename],
    [GetPatch], [GetChanges]; zero values when absent). *)
Record CommitFile := {
  Filename : string;
  Patch : string;
  Changes : Z
}.

Section Diff.

(** The rune-wise lower-casing [strings.ToLower] falls back to. *)
Variable unicode_ToLower : string -> string.

(** [isBinaryFile] *)
Definition isBinaryFile (filename : string) : bool :=
  let filename := ToLower unicode_ToLower filename in
  existsb (fun ext => HasSuffix filename ext) binaryExtensions.

(** The loop of [getPRDiff] over the listed files, writing into the
    [strings.Builder]. *)
Fixpoint write_files (files : list CommitFile) : string :=
  match files with
  | [] => ""
  | file :: files' =>
      if String.eqb (Patch file) "" || (Changes file >? 500) then write_files files'
      else if isBinaryFile (Filename file) then write_files files'
      else "=== " ++ Filename file ++ " ===" ++ Parser.nl
           ++ Patch file ++ Parser.nl ++ Parser.nl ++ write_files files'
  end.

(** [getPRDiff], given what [PullRequests.ListFiles] answered. *)
Definition getPRDiff (listFiles : result (list CommitFile)) : result string :=
  match listFiles with
  | Err err => Err ("failed to get PR files: " ++ err)
  | Ok files => Ok (write_files files)
  end.

End Diff.

End PRDiff.

(** ** The review pipeline of the single-tenant bot (main.go) *)
Module Pipeline.
Import GoStrings TenantConfig.
Local Open Scope Z_scope.

(** The fields of [github.PullRequest] [processPullRequest] reads. *)
Record PullRequest := {
  Number : Z;
  Title : string;
  Body : string;
  Sizes : SizeGate.PullRequest
}.

(** [github.PullRequestReviewRequest] as [postPRReview] fills it: the
    summary as body, the event, and one [DraftReviewComment] per comment
    carrying the comment's path, line, side and body. *)
Record PullRequestReviewRequest := {
  ReviewBody : string;
  Event : string;
  DraftComments : list Parser.ReviewComment
}.

Definition postPRReview_request (review : Parser.ReviewResult) : PullRequestReviewRequest :=
  {| ReviewBody := Parser.Summary review; Event := "COMMENT";
     DraftComments := Parser.Comments review |}.

(** What [processPullRequest] does to the outside world, in order. *)
Inductive event :=
| CreateComment (body : string)                      (* Issues.CreateComment *)
| ListFiles                                          (* PullRequests.ListFiles *)
| ClaudeCall (req : Claude.ClaudeRequest)            (* the messages endpoint *)
| CreateReview (req : PullRequestReviewRequest)      (* PullRequests.CreateReview *)
| Panic.                                             (* a runtime panic: the process stops *)

Section Process.

Variable unicode_ToLower : string -> string.
Variable prompt : string -> string -> string -> string -> string -> string.
Variable getPrecisionGuidelines : string -> string.
Variable send : Claude.ClaudeRequest -> Claude.http_outcome.

(** The answer [PullRequests.ListFiles] gives for this pull request. *)
Variable listFiles : result (list PRDiff.CommitFile).

Definition claude_config (repoConfig : FileConfig.RepositoryConfig) : Claude.RepositoryConfig :=
  {| Claude.Precision := FileConfig.Precision repoConfig;
     Claude.CustomPrompt := FileConfig.CustomPrompt repoConfig |}.

(** [getAIReviewWithConfig]; [None] is a panic of the parser. *)
Definition getAIReviewWithConfig (diff title body : string)
  (repoConfig : FileConfig.RepositoryConfig) : option Parser.ReviewResult :=
  let claudeReview :=
    Claude.callClaudeAPIWithConfig prompt getPrecisionGuidelines send diff title body
      (claude_config repoConfig) in
  Parser.parseClaudeResponse claudeReview diff.

(** [processPullRequest] for the repository [owner/repoName]; the errors of
    the two posting calls are only logged. *)
Definition processPullRequest (reviewConfig : FileConfig.ReviewConfig)
  (owner repoName : string) (pr : PullRequest) : list event :=
  match FileConfig.getRepositoryConfig reviewConfig owner repoName with
  | None => []
  | Some repoConfig =>
      let sizeCheck := SizeGate.checkPRSize (Sizes pr) in
      if negb (SizeGate.ShouldReview sizeCheck) then
        [CreateComment (SizeGate.SkipMessage sizeCheck)]
      else
        match PRDiff.getPRDiff unicode_ToLower listFiles with
        | Err _ => [ListFiles]
        | Ok diff =>
            let req := Claude.request prompt getPrecisionGuidelines diff (Title pr) (Body pr)
                         (claude_config repoConfig) in
            match getAIReviewWithConfig diff (Title pr) (Body pr) repoConfig with
            | None => [ListFiles; ClaudeCall req; Panic]
            | Some review =>
                let review :=
                  if negb (String.eqb (SizeGate.WarningMessage sizeCheck) "")
                  then {| Parser.Summary := SizeGate.WarningMessage sizeCheck ++ Parser.Summary review;
                          Parser.Comments := Parser.Comments review |}
                  else review in
                [ListFiles; ClaudeCall req; CreateReview (postPRReview_request review)]
            end
        end
  end.

End Process.

End Pipeline.

(** ** The webhook endpoint of the multi-tenant bot (internal/bot/webhook.go) *)
Module WebhookHandler.
Import GoStrings Webhook.
Local Open Scope Z_scope.

(** What the handler reads of the [http.Request]: the method, the body as
    [io.ReadAll] returns it ([None] on a read error) and the
    [X-Hub-Signature-256] header ([""] when absent). *)
Record Request := {
  Method : string;
  ReqBody : option string;
  SignatureHeader : string
}.

(** [WebhookPayload]; the repository is carried through unchanged and is
    represented by its full name. *)
Record WebhookPayload := {
  Action : string;
  PullRequest : option Webhook.PullRequest;
  Repository : option string;
  Installation : option Z       (* the [id] of the [installation] object *)
}.

Inductive response :=
| HttpError (code : Z) (msg : string)     (* http.Error *)
| WriteHeader (code : Z).                 (* w.WriteHeader *)

(** The arguments of the [go bot.ProcessPullRequest(...)] statement. *)
Record Dispatch := {
  d_Repository : option string;
  d_PullRequest : option Webhook.PullRequest;
  d_installationID : Z
}.

Section Handler.

Variable hmac_sha256 : string -> string -> string.

(** [json.Unmarshal] into a [WebhookPayload]; [None] is its error. *)
Variable Unmarshal : string -> option WebhookPayload.

(** [handleWebhook], with [bot.config.GitHubWebhookSecret] as [secret]: the
    response written and the review started, if any. *)
Definition handleWebhook (secret : string) (r : Request) : response * option Dispatch :=
  if negb (String.eqb (Method r) "POST") then (HttpError 405 "Method not allowed", None) else
  match ReqBody r with
  | None => (HttpError 400 "Bad request", None)
  | Some body =>
      if negb (String.eqb secret "")
         && negb (validateWebhookSignature hmac_sha256 secret body (SignatureHeader r))
      then (HttpError 401 "Unauthorized", None)
      else
        match Unmarshal body with
        | None => (HttpError 400 "Bad request", None)
        | Some payload =>
            if negb (shouldTriggerReview (Action payload) (PullRequest payload))
            then (WriteHeader 200, None)
            else
              let installationID :=
                match Installation payload with Some id => id | None => 0 end in
              (WriteHeader 200,
               Some {| d_Repository := Repository payload; d_PullRequest := PullRequest payload;
                       d_installationID := installationID |})
        end
  end.

End Handler.

End WebhookHandler.

(** ** Environment loading (main.go) *)
Module EnvFile.
Import GoStrings.

(** The process environment, the latest assignment first. *)
Definition environ := list (string * string).

Fixpoint lookup_env (env : environ) (key : string) : option string :=
  match env with
  | [] => None
  | (k, v) :: env' => if String.eqb k key then Some v else lookup_env env' key
  end.

(** [os.Getenv]: [""] when unset. *)
Definition Getenv (env : environ) (key : string) : string :=
  match lookup_env env key with Some v => v | None => "" end.

Definition nul : ascii := ascii_of_nat 0.

(** [os.Setenv] on Unix: an empty key, a key holding ['='] or NUL, or a
    value holding NUL is refused ([EINVAL]) and nothing changes. *)
Definition Setenv (env : environ) (key value : string) : environ :=
  if String.eqb key ""
     || negb (forall_chars (fun c => negb (Ascii.eqb c "=") && negb (Ascii.eqb c nul)) key)
     || negb (forall_chars (fun c => negb (Ascii.eqb c nul)) value)
  then env
  else (key, value) :: env.

(** [s[i]] for an index the caller has checked. *)
Definition byte_at (s : string) (i : nat) : ascii :=
  match String.get i s with Some c => c | None => nul end.

Definition dq_char : ascii := ascii_of_nat 34.

(** The quote stripping of [loadEnvFile]. *)
Definition strip_quotes (value : string) : string :=
  let n := String.length value in
  if (2 <=? n)%nat
     && ((Ascii.eqb (byte_at value 0) dq_char && Ascii.eqb (byte_at value (n - 1)) dq_char)
         || (Ascii.eqb (byte_at value 0) "'" && Ascii.eqb (byte_at value (n - 1)) "'"))
  then substring 1 (n - 2) value
  else value.

(** One line of the loop of [loadEnvFile]. *)
Definition load_line (env : environ) (line : string) : environ :=
  let line := TrimSpace line in
  if String.eqb line "" || HasPrefix line "#" then env
  else
    match SplitN line "=" 2 with
    | [p0; p1] => Setenv env (TrimSpace p0) (strip_quotes (TrimSpace p1))
    | _ => env
    end.

(** [loadEnvFile]: [None] when [os.Open] fails, otherwise the lines the
    scanner yields. *)
Definition loadEnvFile (env : environ) (file : option (list string)) : environ :=
  match file with
  | None => env
  | Some lines => fold_left load_line lines env
  end.

(** [getEnv] *)
Definition getEnv (env : environ) (key defaultValue : string) : string :=
  let value := Getenv env key in
  if String.eqb value "" then defaultValue else value.

End EnvFile.

(** * Properties *)

(** ** Tenant resolution *)
Module TenantFacts.
Import GoStrings TenantConfig.
Local Open Scope Z_scope.

(** One installation (GitHub id 1, row id 10) with two organizations,
    and a single policy [repoA] that belongs to [orgX]. *)
Definition orgX : Organization :=
  {| org_ID := 100; org_Name := "orgX"; org_installation_id := 10 |}.
Definition orgY : Organization :=
  {| org_ID := 200; org_Name := "orgY"; org_installation_id := 10 |}.
Definition repoA_of_orgX : Repository :=
  {| repo_ID := 1; repo_Name := "repoA"; repo_Precision := "strict";
     repo_CustomPrompt := "orgX policy"; repo_organization_id := 100 |}.
Definition two_orgs_db : Database :=
  {| installation := [{| inst_ID := 10; inst_InstallationID := 1 |}];
     organization := [orgX; orgY];
     repository := [repoA_of_orgX];
     repository_answer := fun _ => [] |}.

(** The organization query does not depend on the requested name: any two
    names get the same rows. *)
Lemma GetOrganization_name_irrelevant (db : Database) (id : Z) (n1 n2 : string)
  (orgs : list Organization) :
  GetOrganizationByInstallationAndName db id n1 = Ok orgs ->
  GetOrganizationByInstallationAndName db id n2 = Ok orgs.
Proof.
  unfold GetOrganizationByInstallationAndName.
  destruct (filter _ _); [discriminate | tauto].
Qed.

(** C1 (code defect).  The organization lookup returns [orgX]'s row for a
    request naming [orgY], and the provider then resolves [orgX]'s policy
    [repoA] for the request [(orgY, repoA)] on installation 1. *)
Theorem org_lookup_not_name_scoped :
  GetOrganizationByInstallationAndName two_orgs_db 10 "orgY" = Ok [orgX; orgY] /\
  GetRepositoryConfig two_orgs_db "orgY" "repoA" 1 =
    Ok {| Name := "repoA"; Precision := "strict"; CustomPrompt := "orgX policy" |}.
Proof. split; reflexivity. Qed.

End TenantFacts.

(** ** Webhook trigger and signature *)
Module WebhookFacts.
Import GoStrings Webhook.

(** C3.  A review is triggered exactly for a non-draft pull request with
    action [opened] or [ready_for_review]; a draft never triggers, and
    [synchronize] never triggers. *)
Theorem shouldTriggerReview_spec (action : string) (pr : option PullRequest) :
  (shouldTriggerReview action pr = true <->
     GetDraft pr = false /\ (action = "opened" \/ action = "ready_for_review")) /\
  (GetDraft pr = true -> shouldTriggerReview action pr = false) /\
  shouldTriggerReview "synchronize" pr = false.
Proof.
  unfold shouldTriggerReview.
  destruct (GetDraft pr); simpl.
  - repeat split; try discriminate. intros [H _]; discriminate.
  - repeat split; try discriminate.
    + destruct (String.eqb_spec action "opened"); [tauto|].
      destruct (String.eqb_spec action "ready_for_review"); [tauto|].
      destruct (String.eqb action "synchronize"); discriminate.
    + intros [_ [H | H]]; subst; reflexivity.
Qed.

Lemma hex_digit_not_s (k : nat) : hex_digit k <> "s"%char.
Proof.
  unfold hex_digit.
  do 16 (destruct k as [|k]; [discriminate|]).
  destruct k; discriminate.
Qed.

Lemma EncodeToString_length (b : string) :
  String.length (EncodeToString b) = (2 * String.length b)%nat.
Proof. induction b; simpl; [reflexivity | rewrite IHb; lia]. Qed.

(** The hex encoding of a non-empty digest never starts with [sha256=]. *)
Lemma EncodeToString_no_prefix (b : string) :
  b <> EmptyString -> String.eqb (substring 0 7 (EncodeToString b)) "sha256=" = false.
Proof.
  destruct b as [|c b]; [congruence|]. intros _. cbn [EncodeToString substring String.eqb].
  destruct (Ascii.eqb_spec (hex_digit (nat_of_ascii c / 16)) "s") as [H|_].
  - exfalso. exact (hex_digit_not_s _ H).
  - reflexivity.
Qed.

(** C10.  With the webhook secret configured, the bare hex digest (no
    [sha256=] prefix) is accepted: for any HMAC function with 32-byte
    output, any secret and any body. *)
Theorem bare_hex_digest_accepted (hmac_sha256 : string -> string -> string)
  (secret body : string) :
  String.length (hmac_sha256 secret body) = 32%nat ->
  validateWebhookSignature hmac_sha256 secret body
    (EncodeToString (hmac_sha256 secret body)) = true.
Proof.
  intros Hlen. unfold validateWebhookSignature.
  assert (Hne : hmac_sha256 secret body <> EmptyString)
    by (intro E; rewrite E in Hlen; discriminate).
  destruct (String.eqb_spec (EncodeToString (hmac_sha256 secret body)) "") as [E|_].
  { apply (f_equal String.length) in E. rewrite EncodeToString_length, Hlen in E.
    discriminate. }
  rewrite (EncodeToString_no_prefix _ Hne), andb_false_r.
  apply String.eqb_refl.
Qed.

End WebhookFacts.

(** ** Repository-policy lookup *)
Module PolicyFacts.
Import GoStrings.
Local Open Scope Z_scope.

Section FirstMatch.
Context {A : Type} (p : A -> bool).

Lemma first_match_some (l : list A) (x : A) :
  FileConfig.first_match p l = Some x -> In x l /\ p x = true.
Proof.
  induction l as [|y l IH]; simpl; [discriminate|].
  destruct (p y) eqn:Hy.
  - intros [= <-]. auto.
  - intros H. destruct (IH H). auto.
Qed.

Lemma first_match_none (l : list A) :
  FileConfig.first_match p l = None <-> Forall (fun x => p x = false) l.
Proof.
  induction l as [|y l IH]; simpl; [split; auto|].
  destruct (p y) eqn:Hy; split.
  - discriminate.
  - intros H. inversion H; congruence.
  - intros H. constructor; [assumption | apply IH, H].
  - intros H. inversion H; apply IH; assumption.
Qed.

End FirstMatch.

Import FileConfig.

Lemma lookup_in_org_sound (org : OrganizationConfig) (n : string) (r : RepositoryConfig) :
  lookup_in_org org n = Some r ->
  In r (Repositories org) /\
  (Name r = n \/
   (Forall (fun x => Name x <> n) (Repositories org) /\ (Name r = "*" \/ Name r = "default"))).
Proof.
  unfold lookup_in_org.
  destruct (first_match _ _) as [x|] eqn:E1.
  - intros [= <-]. apply first_match_some in E1 as [Hin Hx].
    split; [exact Hin|]. left. apply String.eqb_eq, Hx.
  - intros E2. apply first_match_some in E2 as [Hin Hx]. split; [exact Hin|]. right.
    split.
    + apply first_match_none in E1. eapply Forall_impl; [|exact E1].
      intros a Ha Heq. apply String.eqb_neq in Ha. contradiction.
    + apply orb_true_iff in Hx as [H|H]; apply String.eqb_eq in H; auto.
Qed.

Lemma lookup_in_org_exact (org : OrganizationConfig) (n : string) :
  (exists r, In r (Repositories org) /\ Name r = n) ->
  exists r, lookup_in_org org n = Some r /\ Name r = n.
Proof.
  intros [r [Hin Hn]]. unfold lookup_in_org.
  destruct (first_match _ _) as [x|] eqn:E1.
  - exists x. split; [reflexivity|]. apply first_match_some in E1 as [_ Hx].
    apply String.eqb_eq, Hx.
  - apply first_match_none in E1. rewrite Forall_forall in E1.
    specialize (E1 r Hin). rewrite Hn, String.eqb_refl in E1. discriminate.
Qed.

Lemma lookup_in_org_none (org : OrganizationConfig) (n : string) :
  lookup_in_org org n = None <->
  Forall (fun x => Name x <> n /\ Name x <> "*" /\ Name x <> "default") (Repositories org).
Proof.
  unfold lookup_in_org.
  destruct (first_match _ _) as [x|] eqn:E1.
  - split; [discriminate|]. intros H. apply first_match_some in E1 as [Hin Hx].
    rewrite Forall_forall in H. destruct (H x Hin) as [Hn _].
    apply String.eqb_eq in Hx. contradiction.
  - rewrite first_match_none. apply first_match_none in E1.
    rewrite !Forall_forall in *. split.
    + intros H x Hin. specialize (E1 x Hin). specialize (H x Hin).
      apply String.eqb_neq in E1. apply orb_false_iff in H as [H1 H2].
      apply String.eqb_neq in H1, H2. auto.
    + intros H x Hin. destruct (H x Hin) as [_ [H1 H2]].
      apply orb_false_iff; split; apply String.eqb_neq; assumption.
Qed.

Lemma getRepositoryConfig_from_org (cfg : ReviewConfig) (owner n : string)
  (r : RepositoryConfig) :
  getRepositoryConfig cfg owner n = Some r ->
  exists org, In org (Organizations cfg) /\ OrgName org = owner /\ lookup_in_org org n = Some r.
Proof.
  unfold getRepositoryConfig. induction (Organizations cfg) as [|o os IH]; simpl;
    [discriminate|].
  destruct (String.eqb_spec (OrgName o) owner) as [Ho|Ho].
  - destruct (lookup_in_org o n) eqn:E.
    + intros [= <-]. exists o. auto.
    + intros H. destruct (IH H) as [org [? ?]]. exists org. auto.
  - intros H. destruct (IH H) as [org [? ?]]. exists org. auto.
Qed.

Definition pol (n : string) : RepositoryConfig :=
  {| Name := n; Precision := "medium"; CustomPrompt := "" |}.

(** The spec's example: [orgX] with [repoA] and a [*] entry. *)
Definition example_config : ReviewConfig :=
  {| Organizations := [{| OrgName := "orgX"; Repositories := [pol "repoA"; pol "*"] |}] |}.

(** The two sentinels, [default] listed before [*]. *)
Definition default_first_config : ReviewConfig :=
  {| Organizations := [{| OrgName := "orgX"; Repositories := [pol "default"; pol "*"] |}] |}.

(** A tenant store whose organization [orgX] has a [repoA] row and a [*]
    row. *)
Definition star_db : TenantConfig.Database :=
  {| TenantConfig.installation := [{| TenantConfig.inst_ID := 10; TenantConfig.inst_InstallationID := 1 |}];
     TenantConfig.organization :=
       [{| TenantConfig.org_ID := 100; TenantConfig.org_Name := "orgX";
           TenantConfig.org_installation_id := 10 |}];
     TenantConfig.repository :=
       [{| TenantConfig.repo_ID := 1; TenantConfig.repo_Name := "repoA";
           TenantConfig.repo_Precision := "strict"; TenantConfig.repo_CustomPrompt := "";
           TenantConfig.repo_organization_id := 100 |};
        {| TenantConfig.repo_ID := 2; TenantConfig.repo_Name := "*";
           TenantConfig.repo_Precision := "minor"; TenantConfig.repo_CustomPrompt := "";
           TenantConfig.repo_organization_id := 100 |}];
     TenantConfig.repository_answer := fun _ => [] |}.

(** C2, counterexample.  With [default] listed before [*], the file
    resolver picks [default]; and the database resolver has no wildcard
    step: [repoB] is not found although [orgX] has a [*] row. *)
Lemma wildcard_order_counterexample :
  getRepositoryConfig default_first_config "orgX" "repoB" = Some (pol "default") /\
  exists e, TenantConfig.GetRepositoryConfig star_db "orgX" "repoB" 1 = TenantConfig.Err e.
Proof. split; [reflexivity | eexists; reflexivity]. Qed.

Lemma first_match_split {A} (p : A -> bool) (l : list A) (x : A) :
  first_match p l = Some x ->
  exists l1 l2, l = (l1 ++ x :: l2)%list /\ p x = true /\ Forall (fun y => p y = false) l1.
Proof.
  induction l as [|y l IH]; simpl; [discriminate|].
  destruct (p y) eqn:Hy.
  - intros [= <-]. exists [], l. repeat split; auto.
  - intros H. destruct (IH H) as [l1 [l2 [-> [Hx Hl1]]]].
    exists (y :: l1), l2. repeat split; auto.
Qed.

Lemma Forall_app_inv_l {A} (P : A -> Prop) (l1 l2 : list A) :
  Forall P (l1 ++ l2) -> Forall P l1.
Proof. rewrite Forall_app. tauto. Qed.

(** The entry [lookup_in_org] returns is the first one in list order with
    the requested name, or, when there is none, the first one named [*] or
    [default]. *)
Lemma lookup_in_org_first (org : OrganizationConfig) (n : string) (r : RepositoryConfig) :
  lookup_in_org org n = Some r ->
  exists l1 l2, Repositories org = (l1 ++ r :: l2)%list /\
    ((Name r = n /\ Forall (fun x => Name x <> n) l1) \/
     (Forall (fun x => Name x <> n) (Repositories org) /\
      (Name r = "*" \/ Name r = "default") /\
      Forall (fun x => Name x <> "*" /\ Name x <> "default") l1)).
Proof.
  unfold lookup_in_org.
  destruct (first_match _ _) as [x|] eqn:E1.
  - intros [= <-]. apply first_match_split in E1 as [l1 [l2 [Hl [Hx Hl1]]]].
    exists l1, l2. split; [exact Hl|]. left. split; [apply String.eqb_eq, Hx|].
    eapply Forall_impl; [|exact Hl1]. intros a Ha Heq. apply String.eqb_neq in Ha. contradiction.
  - intros E2. apply first_match_split in E2 as [l1 [l2 [Hl [Hx Hl1]]]].
    exists l1, l2. split; [exact Hl|]. right. split; [|split].
    + apply first_match_none in E1. eapply Forall_impl; [|exact E1].
      intros a Ha Heq. apply String.eqb_neq in Ha. contradiction.
    + apply orb_true_iff in Hx as [H|H]; apply String.eqb_eq in H; auto.
    + eapply Forall_impl; [|exact Hl1]. intros a Ha.
      apply orb_false_iff in Ha as [H1 H2]. apply String.eqb_neq in H1, H2. auto.
Qed.

(** [getRepositoryConfig] answers from the first organization in list order
    that is named as the owner and has an entry for the repository. *)
Lemma getRepositoryConfig_first_org (cfg : ReviewConfig) (owner n : string)
  (r : RepositoryConfig) :
  getRepositoryConfig cfg owner n = Some r ->
  exists o1 org o2, Organizations cfg = (o1 ++ org :: o2)%list /\
    OrgName org = owner /\ lookup_in_org org n = Some r /\
    Forall (fun o => OrgName o <> owner \/ lookup_in_org o n = None) o1.
Proof.
  unfold getRepositoryConfig. induction (Organizations cfg) as [|o os IH]; simpl;
    [discriminate|].
  destruct (String.eqb_spec (OrgName o) owner) as [Ho|Ho].
  - destruct (lookup_in_org o n) eqn:E.
    + intros [= <-]. exists [], o, os. repeat split; auto.
    + intros H. destruct (IH H) as [o1 [org [o2 [-> [? [? ?]]]]]].
      exists (o :: o1), org, o2. repeat split; auto.
  - intros H. destruct (IH H) as [o1 [org [o2 [-> [? [? ?]]]]]].
    exists (o :: o1), org, o2. repeat split; auto.
Qed.

Lemma getRepositoryConfig_none (cfg : ReviewConfig) (owner n : string) :
  getRepositoryConfig cfg owner n = None <->
  Forall (fun o => OrgName o <> owner \/ lookup_in_org o n = None) (Organizations cfg).
Proof.
  unfold getRepositoryConfig. induction (Organizations cfg) as [|o os IH]; simpl;
    [split; auto|].
  destruct (String.eqb_spec (OrgName o) owner) as [Ho|Ho].
  - destruct (lookup_in_org o n) eqn:E.
    + split; [discriminate|]. intros H. inversion H as [|? ? [H1|H1] _]; congruence.
    + rewrite IH. split.
      * intros H. constructor; auto.
      * intros H. inversion H; assumption.
  - rewrite IH. split.
    + intros H. constructor; auto.
    + intros H. inversion H; assumption.
Qed.

(** The database query with a plain name returns a row of the organization
    with exactly that name. *)
Lemma GetRepositoryByOrganizationAndName_plain (db : TenantConfig.Database) (oid : Z)
  (n : string) (r : TenantConfig.Repository) :
  TenantConfig.url_plain n = true ->
  TenantConfig.GetRepositoryByOrganizationAndName db oid n = TenantConfig.Ok r ->
  TenantConfig.repo_Name r = n /\ TenantConfig.repo_organization_id r = oid /\
  In r (TenantConfig.repository db).
Proof.
  intros Hp. unfold TenantConfig.GetRepositoryByOrganizationAndName. rewrite Hp.
  destruct (filter _ _) as [|x l] eqn:E; [discriminate|].
  intros [= <-].
  assert (Hx : In x (filter (fun r => Z.eqb (TenantConfig.repo_organization_id r) oid
                            && String.eqb (TenantConfig.repo_Name r) n)
                   (TenantConfig.repository db))) by (rewrite E; left; reflexivity).
  apply filter_In in Hx as [Hin Hx]. apply andb_true_iff in Hx as [H1 H2].
  split; [apply String.eqb_eq, H2 | split; [apply Z.eqb_eq, H1 | exact Hin]].
Qed.

(** C2, as the code does it.  File resolver: an organization's first entry
    with the requested name wins; failing that, the first entry in list
    order named [*] or [default]; with neither, nothing from that
    organization.  The answer comes from the first organization named as the
    owner that has an entry, and there is none when no such organization
    has one.  The spec's example resolves as stated.  Database resolver: for
    a repository name made of the characters GitHub allows, only a row of
    that organization with exactly that name is returned. *)
Theorem repository_policy_resolution :
  (forall org n r, lookup_in_org org n = Some r ->
     In r (Repositories org) /\
     (Name r = n \/
      (Forall (fun x => Name x <> n) (Repositories org) /\ (Name r = "*" \/ Name r = "default"))) /\
     exists l1 l2, Repositories org = (l1 ++ r :: l2)%list /\
       ((Name r = n /\ Forall (fun x => Name x <> n) l1) \/
        (Forall (fun x => Name x <> n) (Repositories org) /\
         (Name r = "*" \/ Name r = "default") /\
         Forall (fun x => Name x <> "*" /\ Name x <> "default") l1))) /\
  (forall org n, (exists r, In r (Repositories org) /\ Name r = n) ->
     exists r, lookup_in_org org n = Some r /\ Name r = n) /\
  (forall org n, lookup_in_org org n = None <->
     Forall (fun x => Name x <> n /\ Name x <> "*" /\ Name x <> "default") (Repositories org)) /\
  (forall cfg owner n r, getRepositoryConfig cfg owner n = Some r ->
     (exists org, In org (Organizations cfg) /\ OrgName org = owner /\ lookup_in_org org n = Some r) /\
     exists o1 org o2, Organizations cfg = (o1 ++ org :: o2)%list /\
       OrgName org = owner /\ lookup_in_org org n = Some r /\
       Forall (fun o => OrgName o <> owner \/ lookup_in_org o n = None) o1) /\
  (forall cfg owner n, getRepositoryConfig cfg owner n = None <->
     Forall (fun o => OrgName o <> owner \/ lookup_in_org o n = None) (Organizations cfg)) /\
  getRepositoryConfig example_config "orgX" "repoB" = Some (pol "*") /\
  getRepositoryConfig example_config "orgX" "repoA" = Some (pol "repoA") /\
  (forall db oid n r, TenantConfig.url_plain n = true ->
     TenantConfig.GetRepositoryByOrganizationAndName db oid n = TenantConfig.Ok r ->
     TenantConfig.repo_Name r = n /\ TenantConfig.repo_organization_id r = oid).
Proof.
  split.
  { intros org n r H. split; [exact (proj1 (lookup_in_org_sound org n r H))|].
    split; [exact (proj2 (lookup_in_org_sound org n r H))|].
    exact (lookup_in_org_first org n r H). }
  split; [exact lookup_in_org_exact|].
  split; [exact lookup_in_org_none|].
  split.
  { intros cfg owner n r H. split; [exact (getRepositoryConfig_from_org cfg owner n r H)|].
    exact (getRepositoryConfig_first_org cfg owner n r H). }
  split; [exact getRepositoryConfig_none|].
  split; [reflexivity|]. split; [reflexivity|].
  intros db oid n r Hp H.
  destruct (GetRepositoryByOrganizationAndName_plain db oid n r Hp H) as [H1 [H2 _]].
  split; assumption.
Qed.

End PolicyFacts.

(** ** Size gate *)
Module SizeFacts.
Import GoStrings SizeGate.
Local Open Scope Z_scope.

Lemma find_cons (c : ascii) (s sub : string) :
  find (String c s) sub =
  if HasPrefix (String c s) sub then Some 0%nat else option_map S (find s sub).
Proof. reflexivity. Qed.

Lemma find_app_r (a b sub : string) (i : nat) :
  find b sub = Some i -> exists j, find (a ++ b) sub = Some j.
Proof.
  intros Hb. induction a as [|c a IH].
  - exists i. exact Hb.
  - change (String c a ++ b) with (String c (a ++ b)). rewrite find_cons.
    destruct (HasPrefix (String c (a ++ b)) sub); [eauto|].
    destruct IH as [j Hj]. rewrite Hj. eexists; reflexivity.
Qed.

Lemma HasPrefix_app (s t p : string) :
  HasPrefix s p = true -> HasPrefix (s ++ t) p = true.
Proof.
  revert s. induction p as [|c p IH]; intros s; [destruct s; simpl; [destruct t|]; reflexivity|].
  destruct s as [|d s]; simpl; [discriminate|].
  intros H. apply andb_true_iff in H as [H1 H2].
  rewrite H1, (IH s H2). reflexivity.
Qed.

Lemma find_some_prefix (s sub : string) :
  HasPrefix s sub = true -> find s sub = Some 0%nat.
Proof. destruct s; simpl; intros ->; reflexivity. Qed.

Lemma find_app_l (a b sub : string) (i : nat) :
  find a sub = Some i -> exists j, find (a ++ b) sub = Some j.
Proof.
  revert i. induction a as [|c a IH]; intros i.
  - destruct sub as [|d sub]; [|discriminate].
    intros _. exists 0%nat. destruct b; reflexivity.
  - change (String c a ++ b) with (String c (a ++ b)). rewrite !find_cons.
    destruct (HasPrefix (String c a) sub) eqn:H.
    + intros _. rewrite (HasPrefix_app (String c a) b sub H : HasPrefix (String c (a ++ b)) sub = true). eauto.
    + destruct (find a sub) as [k|] eqn:E; cbn [option_map]; [|discriminate].
      intros _. destruct (IH k eq_refl) as [j Hj].
      destruct (HasPrefix (String c (a ++ b)) sub); [eauto|]. rewrite Hj. eexists; reflexivity.
Qed.

Lemma Contains_app_r (a b sub : string) :
  Contains b sub = true -> Contains (a ++ b) sub = true.
Proof.
  unfold Contains. destruct (find b sub) as [i|] eqn:E; [|discriminate].
  intros _. destruct (find_app_r a b sub i E) as [j ->]. reflexivity.
Qed.

Lemma Contains_app_l (a b sub : string) :
  Contains a sub = true -> Contains (a ++ b) sub = true.
Proof.
  unfold Contains. destruct (find a sub) as [i|] eqn:E; [|discriminate].
  intros _. destruct (find_app_l a b sub i E) as [j ->]. reflexivity.
Qed.

Lemma files_skip_message_names (files : Z) :
  Contains (files_skip_message files) "modifies **" = true /\
  Contains (files_skip_message files) "which exceeds our limit of 25 files" = true.
Proof.
  unfold files_skip_message. split.
  - apply Contains_app_l. vm_compute. reflexivity.
  - do 2 apply Contains_app_r. vm_compute. reflexivity.
Qed.

Lemma additions_skip_message_names (additions : Z) :
  Contains (additions_skip_message additions) "adds **" = true /\
  Contains (additions_skip_message additions) "which exceeds our limit of 800 lines" = true.
Proof.
  unfold additions_skip_message. split.
  - apply Contains_app_l. vm_compute. reflexivity.
  - do 2 apply Contains_app_r. vm_compute. reflexivity.
Qed.

Lemma total_skip_message_names (t a d : Z) :
  Contains (total_skip_message t a d) "total changes**" = true /\
  Contains (total_skip_message t a d) "exceeding our limit of 1200 changes" = true.
Proof.
  unfold total_skip_message. split.
  - do 2 apply Contains_app_r. apply Contains_app_l. vm_compute. reflexivity.
  - do 6 apply Contains_app_r. vm_compute. reflexivity.
Qed.

(** C5.  The hard limits are checked in the order files (25), additions
    (800), total changes (1200); each violation is a skip whose message
    names the metric and its ceiling; a PR with 30 files and 900 added
    lines gets the file-count message. *)
Theorem checkPRSize_priority (pr : PullRequest) :
  (ChangedFiles pr > 25 ->
     checkPRSize pr = {| ShouldReview := false; WarningMessage := "";
                         SkipMessage := files_skip_message (ChangedFiles pr) |}) /\
  (ChangedFiles pr <= 25 -> Additions pr > 800 ->
     checkPRSize pr = {| ShouldReview := false; WarningMessage := "";
                         SkipMessage := additions_skip_message (Additions pr) |}) /\
  (ChangedFiles pr <= 25 -> Additions pr <= 800 ->
   add_int (Additions pr) (Deletions pr) > 1200 ->
     checkPRSize pr = {| ShouldReview := false; WarningMessage := "";
                         SkipMessage := total_skip_message (add_int (Additions pr) (Deletions pr))
                                          (Additions pr) (Deletions pr) |}) /\
  (ChangedFiles pr <= 25 -> Additions pr <= 800 ->
   add_int (Additions pr) (Deletions pr) <= 1200 -> ShouldReview (checkPRSize pr) = true) /\
  (forall f, Contains (files_skip_message f) "modifies **" = true /\
             Contains (files_skip_message f) "which exceeds our limit of 25 files" = true) /\
  (forall a, Contains (additions_skip_message a) "adds **" = true /\
             Contains (additions_skip_message a) "which exceeds our limit of 800 lines" = true) /\
  (forall t a d, Contains (total_skip_message t a d) "total changes**" = true /\
             Contains (total_skip_message t a d) "exceeding our limit of 1200 changes" = true) /\
  checkPRSize {| ChangedFiles := 30; Additions := 900; Deletions := 0 |} =
    {| ShouldReview := false; WarningMessage := ""; SkipMessage := files_skip_message 30 |}.
Proof.
  split; [|split; [|split; [|split; [|split; [|split; [|split]]]]]].
  - intros H. unfold checkPRSize. cbv zeta. rewrite Z.gtb_ltb.
    destruct (Z.ltb_spec MAX_FILES_FOR_REVIEW (ChangedFiles pr)) as [_|C];
      [reflexivity | unfold MAX_FILES_FOR_REVIEW in C; lia].
  - intros H1 H2. unfold checkPRSize. cbv zeta. rewrite !Z.gtb_ltb.
    destruct (Z.ltb_spec MAX_FILES_FOR_REVIEW (ChangedFiles pr)) as [C|_];
      [unfold MAX_FILES_FOR_REVIEW in C; lia|].
    destruct (Z.ltb_spec MAX_ADDITIONS_FOR_REVIEW (Additions pr)) as [_|C];
      [reflexivity | unfold MAX_ADDITIONS_FOR_REVIEW in C; lia].
  - intros H1 H2 H3. unfold checkPRSize. cbv zeta. rewrite !Z.gtb_ltb.
    destruct (Z.ltb_spec MAX_FILES_FOR_REVIEW (ChangedFiles pr)) as [C|_];
      [unfold MAX_FILES_FOR_REVIEW in C; lia|].
    destruct (Z.ltb_spec MAX_ADDITIONS_FOR_REVIEW (Additions pr)) as [C|_];
      [unfold MAX_ADDITIONS_FOR_REVIEW in C; lia|].
    destruct (Z.ltb_spec MAX_TOTAL_CHANGES (add_int (Additions pr) (Deletions pr))) as [_|C];
      [reflexivity | unfold MAX_TOTAL_CHANGES in C; lia].
  - intros H1 H2 H3. unfold checkPRSize. cbv zeta. rewrite !Z.gtb_ltb.
    destruct (Z.ltb_spec MAX_FILES_FOR_REVIEW (ChangedFiles pr)) as [C|_];
      [unfold MAX_FILES_FOR_REVIEW in C; lia|].
    destruct (Z.ltb_spec MAX_ADDITIONS_FOR_REVIEW (Additions pr)) as [C|_];
      [unfold MAX_ADDITIONS_FOR_REVIEW in C; lia|].
    destruct (Z.ltb_spec MAX_TOTAL_CHANGES (add_int (Additions pr) (Deletions pr))) as [C|_];
      [unfold MAX_TOTAL_CHANGES in C; lia | reflexivity].
  - exact files_skip_message_names.
  - exact additions_skip_message_names.
  - exact total_skip_message_names.
  - reflexivity.
Qed.

End SizeFacts.

(** ** Parsing the model's answer *)
Module ParserFacts.
Import GoStrings Parser.
Local Open Scope Z_scope.

(** The spec's round-trip response. *)
Definition roundtrip_response : string :=
  "SUMMARY:$$Hello$$" ++ nl ++ "POEM:$$Line1" ++ nl ++ "Line2$$" ++ nl
  ++ "PR_COMMENT:app.go:10: 🔧 **refactor**:$$Do X$$".

(** C6.  The summary contains [Hello] and the poem, and the only comment
    is on [app.go] line 10 with body: label line, blank line, [Do X]. *)
Theorem parse_roundtrip :
  exists res,
    parseClaudeResponse roundtrip_response "" = Some res /\
    Contains (Summary res) "Hello" = true /\
    Contains (Summary res) ("Line1" ++ nl ++ "Line2") = true /\
    Comments res = [{| Path := "app.go"; Line := 10; Side := "RIGHT";
                       Body := "🔧 **refactor**:" ++ nl ++ nl ++ "Do X" |}].
Proof.
  eexists. split; [vm_compute; reflexivity|].
  split; [vm_compute; reflexivity|]. split; vm_compute; reflexivity.
Qed.

(** A first block whose header has a single field and whose body is the
    three bytes [$$$], then a well-formed block. *)
Definition overlapping_delimiters_response : string :=
  "PR_COMMENT:app.go$$$" ++ nl ++ "PR_COMMENT:b.go:3: x:$$ok$$".

(** The same first header with a well-formed body. *)
Definition short_header_response : string :=
  "PR_COMMENT:app.go$$a$$" ++ nl ++ "PR_COMMENT:b.go:3: x:$$ok$$".

(** C7 (code defect).  In the block [app.go$$$] the first [$$] is at 6 and
    the last at 7, which passes the guard [endDelim <= startDelim]; the
    slice [block[8:7]] then panics, so the whole response yields no result
    and the well-formed second block is lost.  With a well-formed body the
    same short header is dropped and the second block is kept. *)
Theorem overlapping_delimiters_abort :
  Index ("app.go$$$" ++ nl) "$$" = 6 /\ LastIndex ("app.go$$$" ++ nl) "$$" = 7 /\
  parsePRCommentBlock ("app.go$$$" ++ nl) = None /\
  parseClaudeResponse overlapping_delimiters_response "" = None /\
  option_map Comments (parseClaudeResponse short_header_response "") =
    Some [{| Path := "b.go"; Line := 3; Side := "RIGHT"; Body := "x:" ++ nl ++ nl ++ "ok" |}].
Proof. repeat split; vm_compute; reflexivity. Qed.

End ParserFacts.

(** ** Calling the model *)
Module ClaudeFacts.
Import Claude.
Local Open Scope Z_scope.

(** C8.  A transport error, a status other than 200 and an empty
    [content] array each give a fixed literal instead of the model's
    text: "Error generating AI review" for the first two, "No response
    from Claude" for the third; the call returns a string in every case. *)
Theorem callClaude_failures_degrade prompt guidelines send diff title body cfg :
  (send (request prompt guidelines diff title body cfg) = NetworkError ->
     callClaudeAPIWithConfig prompt guidelines send diff title body cfg
     = "Error generating AI review") /\
  (forall code decoded,
     send (request prompt guidelines diff title body cfg) = Response code decoded ->
     code <> 200 ->
     callClaudeAPIWithConfig prompt guidelines send diff title body cfg
     = "Error generating AI review") /\
  (send (request prompt guidelines diff title body cfg) = Response 200 (Some []) ->
     callClaudeAPIWithConfig prompt guidelines send diff title body cfg
     = "No response from Claude").
Proof.
  unfold callClaudeAPIWithConfig. split; [|split].
  - intros ->. reflexivity.
  - intros code decoded -> Hc. apply Z.eqb_neq in Hc. rewrite Hc. reflexivity.
  - intros ->. reflexivity.
Qed.

End ClaudeFacts.

(** ** Installation authentication and the personal-token fallback *)
Module AuthFacts.
Import TenantConfig Auth.
Local Open Scope Z_scope.

(** The condition under which [New] attempts the GitHub-App path. *)
Definition app_configured (cfg : Config) : bool :=
  negb (GitHubAppID cfg =? 0) && negb (String.eqb (GitHubPrivateKeyPath cfg) "").

(** A deployment whose key file cannot be read. *)
Definition unreadable_key_env : Env :=
  {| ReadFile := fun _ => None;
     pem_Decode := fun b => Some b;
     ParsePKCS1PrivateKey := fun b => Some b;
     SignRS256 := fun _ _ => Some "jwt";
     CreateInstallationToken := fun _ _ => Some "ghs_installation" |}.

Definition app_config : Config :=
  {| GitHubToken := "ghp_personal"; GitHubAppID := 12345;
     GitHubPrivateKeyPath := "/keys/app.pem" |}.

(** C9, counterexample.  The GitHub-App path is configured and its key
    cannot be read, yet the review of a PR goes ahead with the personal
    token instead of being aborted. *)
Lemma app_init_failure_falls_back :
  app_configured app_config = true /\
  NewGitHubAppAuth unreadable_key_env 12345 "/keys/app.pem" = Err "failed to read private key" /\
  New unreadable_key_env app_config =
    Ok {| githubClient := {| credential := "ghp_personal" |}; githubApp := None |} /\
  ProcessPullRequest_auth unreadable_key_env
    {| githubClient := {| credential := "ghp_personal" |}; githubApp := None |} 7 =
    ReviewWith {| credential := "ghp_personal" |} /\
  ~ (forall env cfg bot iid,
       app_configured cfg = true ->
       (exists e, NewGitHubAppAuth env (GitHubAppID cfg) (GitHubPrivateKeyPath cfg) = Err e) ->
       New env cfg = Ok bot ->
       exists e, ProcessPullRequest_auth env bot iid = Aborted e).
Proof.
  split; [reflexivity|]. split; [reflexivity|]. split; [reflexivity|].
  split; [reflexivity|].
  intros H.
  destruct (H unreadable_key_env app_config
              {| githubClient := {| credential := "ghp_personal" |}; githubApp := None |} 7
              eq_refl (ex_intro _ _ eq_refl) eq_refl) as [e He].
  discriminate He.
Qed.

(** C9, as the code does it.  A failed initialisation (unreadable key, no
    PEM block, unparsable key) leaves the bot on the personal token, as an
    unconfigured GitHub-App path does; with an initialised authenticator
    each PR gets an installation token or, when signing or the exchange
    fails, is aborted, and never falls back to the personal token. *)
Theorem auth_fallback_policy :
  (forall env id path,
     (exists e, NewGitHubAppAuth env id path = Err e) <->
     (ReadFile env path = None \/
      exists k, ReadFile env path = Some k /\
        (pem_Decode env k = None \/
         exists blk, pem_Decode env k = Some blk /\ ParsePKCS1PrivateKey env blk = None))) /\
  (forall env cfg bot iid,
     New env cfg = Ok bot ->
     (app_configured cfg = false \/
      exists e, NewGitHubAppAuth env (GitHubAppID cfg) (GitHubPrivateKeyPath cfg) = Err e) ->
     ProcessPullRequest_auth env bot iid = ReviewWith {| credential := GitHubToken cfg |}) /\
  (forall env cfg bot iid a,
     New env cfg = Ok bot ->
     app_configured cfg = true ->
     NewGitHubAppAuth env (GitHubAppID cfg) (GitHubPrivateKeyPath cfg) = Ok a ->
     ProcessPullRequest_auth env bot iid =
       match GetInstallationToken env a iid with
       | Err e => Aborted ("failed to get installation token: " ++ e)
       | Ok token => ReviewWith {| credential := token |}
       end) /\
  (forall env a iid,
     (exists e, GetInstallationToken env a iid = Err e) <->
     (SignRS256 env (appID a) (privateKey a) = None \/
      exists jwt, SignRS256 env (appID a) (privateKey a) = Some jwt /\
                  CreateInstallationToken env jwt iid = None)).
Proof.
  split; [|split; [|split]].
  - intros env id path. unfold NewGitHubAppAuth.
    destruct (ReadFile env path) as [k|]; [|split; [auto | eauto]].
    destruct (pem_Decode env k) as [blk|] eqn:Hp.
    + destruct (ParsePKCS1PrivateKey env blk) eqn:Hk; split.
      * intros [e He]; discriminate.
      * intros [H|[k' [[= <-] [H|[blk' [H1 H2]]]]]]; [discriminate|congruence|congruence].
      * intros _. right. exists k. split; [reflexivity|]. right. eauto.
      * eauto.
    + split; [intros _; right; eauto | eauto].
  - intros env cfg bot iid. unfold New. simpl.
    intros [= <-] Hcase. unfold ProcessPullRequest_auth, createInstallationClient. simpl.
    destruct Hcase as [Hc | [e He]].
    + unfold app_configured in Hc. rewrite Hc. reflexivity.
    + rewrite He. destruct (_ && _); reflexivity.
  - intros env cfg bot iid a. unfold New. simpl. intros [= <-] Hc Ha.
    unfold app_configured in Hc. rewrite Hc, Ha.
    unfold ProcessPullRequest_auth, createInstallationClient. simpl.
    destruct (GetInstallationToken env a iid); reflexivity.
  - intros env a iid. unfold GetInstallationToken.
    destruct (SignRS256 env (appID a) (privateKey a)) as [jwt|]; [|split; [auto | eauto]].
    destruct (CreateInstallationToken env jwt iid) eqn:Hx; split.
    + intros [e He]; discriminate.
    + intros [H|[j [[= <-] H]]]; [discriminate | congruence].
    + intros _. right. eauto.
    + eauto.
Qed.

End AuthFacts.

(** ** The theorems at concrete inputs *)
Module Witnesses.
Local Open Scope Z_scope.

Definition draft_pr : option Webhook.PullRequest := Some {| Webhook.Draft := Some true |}.

Lemma shouldTriggerReview_spec_witness :
  Webhook.GetDraft draft_pr = true /\ Webhook.shouldTriggerReview "opened" draft_pr = false.
Proof.
  split; [reflexivity|].
  apply (proj1 (proj2 (WebhookFacts.shouldTriggerReview_spec "opened" draft_pr))).
  reflexivity.
Defined.

(** A stand-in digest function with the 32-byte output of HMAC-SHA256. *)
Definition fixed_digest (_ _ : string) : string := "0123456789abcdef0123456789abcdef".

Lemma bare_hex_digest_accepted_witness :
  String.length (fixed_digest "secret" "{}") = 32%nat /\
  Webhook.validateWebhookSignature fixed_digest "secret" "{}"
    (Webhook.EncodeToString (fixed_digest "secret" "{}")) = true.
Proof.
  split; [reflexivity|].
  apply (WebhookFacts.bare_hex_digest_accepted fixed_digest "secret" "{}").
  reflexivity.
Defined.

Definition orgX_config : FileConfig.OrganizationConfig :=
  {| FileConfig.OrgName := "orgX";
     FileConfig.Repositories := [PolicyFacts.pol "repoA"; PolicyFacts.pol "*"] |}.

Lemma repository_policy_resolution_witness :
  FileConfig.lookup_in_org orgX_config "repoB" = Some (PolicyFacts.pol "*") /\
  In (PolicyFacts.pol "*") (FileConfig.Repositories orgX_config) /\
  (FileConfig.Name (PolicyFacts.pol "*") = "repoB" \/
   (Forall (fun x => FileConfig.Name x <> "repoB") (FileConfig.Repositories orgX_config) /\
    (FileConfig.Name (PolicyFacts.pol "*") = "*" \/
     FileConfig.Name (PolicyFacts.pol "*") = "default"))).
Proof.
  split; [reflexivity|].
  destruct (proj1 PolicyFacts.repository_policy_resolution orgX_config "repoB"
              (PolicyFacts.pol "*") eq_refl) as [H1 [H2 _]].
  split; assumption.
Defined.

Definition big_pr : SizeGate.PullRequest :=
  {| SizeGate.ChangedFiles := 30; SizeGate.Additions := 900; SizeGate.Deletions := 0 |}.

Lemma checkPRSize_priority_witness :
  SizeGate.ChangedFiles big_pr > 25 /\
  SizeGate.checkPRSize big_pr =
    {| SizeGate.ShouldReview := false; SizeGate.WarningMessage := "";
       SizeGate.SkipMessage := SizeGate.files_skip_message (SizeGate.ChangedFiles big_pr) |}.
Proof.
  split; [simpl; lia|].
  apply (proj1 (SizeFacts.checkPRSize_priority big_pr)). simpl. lia.
Defined.

Definition medium_cfg : Claude.RepositoryConfig :=
  {| Claude.Precision := "medium"; Claude.CustomPrompt := "" |}.

Definition plain_prompt (t b g d c : string) : string := t ++ b ++ g ++ d ++ c.

Lemma callClaude_failures_degrade_witness :
  Claude.callClaudeAPIWithConfig plain_prompt (fun g => g) (fun _ => Claude.Response 529 None)
    "diff" "title" "body" medium_cfg = "Error generating AI review".
Proof.
  apply (proj1 (proj2 (ClaudeFacts.callClaude_failures_degrade plain_prompt (fun g => g)
           (fun _ => Claude.Response 529 None) "diff" "title" "body" medium_cfg)) 529 None);
    [reflexivity | discriminate].
Defined.

(** A readable key whose token exchange is refused. *)
Definition refused_exchange_env : Auth.Env :=
  {| Auth.ReadFile := fun _ => Some "pem";
     Auth.pem_Decode := fun b => Some b;
     Auth.ParsePKCS1PrivateKey := fun b => Some b;
     Auth.SignRS256 := fun _ _ => Some "jwt";
     Auth.CreateInstallationToken := fun _ _ => None |}.

Definition app_bot : Auth.CycloneBot :=
  {| Auth.githubClient := {| Auth.credential := "ghp_personal" |};
     Auth.githubApp := Some {| Auth.appID := 12345; Auth.privateKey := "pem" |} |}.

Lemma auth_fallback_policy_witness :
  Auth.New refused_exchange_env AuthFacts.app_config = TenantConfig.Ok app_bot /\
  Auth.ProcessPullRequest_auth refused_exchange_env app_bot 7 =
    Auth.Aborted "failed to get installation token: failed to create installation token".
Proof.
  split; [reflexivity|].
  rewrite (proj1 (proj2 (proj2 AuthFacts.auth_fallback_policy)) refused_exchange_env
             AuthFacts.app_config app_bot 7 {| Auth.appID := 12345; Auth.privateKey := "pem" |}
             eq_refl eq_refl eq_refl).
  reflexivity.
Defined.

End Witnesses.

(** * Further properties of the modelled code *)

Module StringFacts.
Import GoStrings.

Lemma forall_chars_app p a b :
  forall_chars p (a ++ b) = forall_chars p a && forall_chars p b.
Proof. induction a as [|c a IH]; simpl; [reflexivity|]. rewrite IH, andb_assoc. reflexivity. Qed.

Lemma append_nil_r (s : string) : s ++ "" = s.
Proof. induction s as [|c s IH]; simpl; [|rewrite IH]; reflexivity. Qed.

Lemma append_assoc (a b c : string) : (a ++ b) ++ c = a ++ (b ++ c).
Proof. induction a as [|x a IH]; simpl; [|rewrite IH]; reflexivity. Qed.

Lemma length_app (a b : string) : String.length (a ++ b) = (String.length a + String.length b)%nat.
Proof. induction a as [|x a IH]; simpl; [|rewrite IH]; reflexivity. Qed.

Lemma HasPrefix_length (s p : string) :
  HasPrefix s p = true -> (String.length p <= String.length s)%nat.
Proof.
  revert s; induction p as [|c p IH]; intros s; [simpl; lia|].
  destruct s as [|d s]; simpl; [discriminate|].
  intros H. apply andb_true_iff in H as [_ H]. apply IH in H. lia.
Qed.

Lemma HasPrefix_app_long (s t p : string) :
  (String.length p <= String.length s)%nat -> HasPrefix (s ++ t) p = HasPrefix s p.
Proof.
  revert s; induction p as [|c p IH]; intros s Hl.
  - destruct s, t; reflexivity.
  - destruct s as [|d s]; simpl in *; [lia|]. rewrite IH by lia. reflexivity.
Qed.

Lemma find_bound (s sep : string) (i : nat) :
  find s sep = Some i -> (i + String.length sep <= String.length s)%nat.
Proof.
  revert i; induction s as [|c s IH]; intros i.
  - destruct sep; simpl; intros E; [injection E as <-; reflexivity|discriminate].
  - rewrite SizeFacts.find_cons. destruct (HasPrefix (String c s) sep) eqn:H.
    + intros E; injection E as <-. apply HasPrefix_length in H. lia.
    + destruct (find s sep) as [k|] eqn:E; cbn [option_map]; [|discriminate].
      intros F; injection F as <-. specialize (IH k eq_refl). simpl; lia.
Qed.

Lemma rfind_bound (s sep : string) (i : nat) :
  rfind s sep = Some i -> (i + String.length sep <= String.length s)%nat.
Proof.
  revert i; induction s as [|c s IH]; intros i.
  - destruct sep; simpl; intros E; [injection E as <-; reflexivity|discriminate].
  - cbn [rfind]. destruct (rfind s sep) as [k|] eqn:E.
    + intros F; injection F as <-. specialize (IH k eq_refl). simpl; lia.
    + destruct (HasPrefix (String c s) sep) eqn:H; [|discriminate].
      intros F; injection F as <-. apply HasPrefix_length in H. simpl in *; lia.
Qed.



(** A string none of whose bytes is [c] has [c] at the offset where it
    ends. *)
Lemma find_char_app (a b : string) (c : ascii) :
  forall_chars (fun d => negb (Ascii.eqb d c)) a = true ->
  find (a ++ b) (String c "") = option_map (Nat.add (String.length a)) (find b (String c "")).
Proof.
  induction a as [|d a IH]; intros H.
  - simpl. destruct (find b (String c "")); reflexivity.
  - simpl in H. apply andb_true_iff in H as [Hd H].
    change (String d a ++ b) with (String d (a ++ b)). rewrite SizeFacts.find_cons.
    assert (HP : HasPrefix (String d (a ++ b)) (String c "") = false).
    { simpl. rewrite Ascii.eqb_sym. destruct (Ascii.eqb d c); [discriminate|reflexivity]. }
    rewrite HP, IH by exact H. destruct (find b (String c "")); reflexivity.
Qed.



Lemma substring_0_all (s : string) (n : nat) :
  (String.length s <= n)%nat -> substring 0 n s = s.
Proof.
  revert n; induction s as [|c s IH]; intros n Hn; [destruct n; reflexivity|].
  destruct n; simpl in *; [lia|]. rewrite IH by lia. reflexivity.
Qed.

Lemma substring_app_r (a b : string) (k n : nat) :
  substring (String.length a + k) n (a ++ b) = substring k n b.
Proof. induction a as [|c a IH]; [reflexivity|]. simpl. exact IH. Qed.

Lemma substring_app_l (a b : string) (n : nat) :
  (n <= String.length a)%nat -> substring 0 n (a ++ b) = substring 0 n a.
Proof.
  revert n; induction a as [|c a IH]; intros n Hn.
  - simpl in Hn. assert (n = 0%nat) as -> by lia. destruct b; reflexivity.
  - destruct n; [reflexivity|]. simpl in *. rewrite IH by lia. reflexivity.
Qed.

Lemma substring_prefix (a b : string) :
  substring 0 (String.length a) (a ++ b) = a.
Proof. rewrite substring_app_l by lia. apply substring_0_all; lia. Qed.

Lemma substring_suffix (a b : string) (n : nat) :
  (String.length b <= n)%nat -> substring (String.length a) n (a ++ b) = b.
Proof.
  intros H. rewrite <- (Nat.add_0_r (String.length a)), substring_app_r.
  apply substring_0_all; exact H.
Qed.

Lemma substring_length (k n : nat) (s : string) :
  (k + n <= String.length s)%nat -> String.length (substring k n s) = n.
Proof.
  revert k n; induction s as [|c s IH]; intros k n H.
  - simpl in H. assert (k = 0 /\ n = 0)%nat as [-> ->] by lia. reflexivity.
  - destruct k as [|k].
    + destruct n as [|n]; [reflexivity|]. simpl in *. rewrite IH by lia. reflexivity.
    + simpl in *. apply IH; lia.
Qed.

End StringFacts.

Module SliceFacts.
Import GoStrings Parser StringFacts.
Local Open Scope Z_scope.

Lemma slice_ok (s : string) (i j : Z) :
  0 <= i -> i <= j -> j <= len s ->
  slice s i j = Some (substring (Z.to_nat i) (Z.to_nat (j - i)) s).
Proof.
  intros H1 H2 H3. unfold slice.
  rewrite (proj2 (Z.leb_le 0 i) H1), (proj2 (Z.leb_le i j) H2), (proj2 (Z.leb_le j (len s)) H3).
  reflexivity.
Qed.

Lemma Index_some (s sep : string) (i : nat) :
  find s sep = Some i -> Index s sep = Z.of_nat i.
Proof. unfold Index; intros ->; reflexivity. Qed.

Lemma Index_none (s sep : string) :
  find s sep = None -> Index s sep = -1.
Proof. unfold Index; intros ->; reflexivity. Qed.

Lemma nat_neq_m1 (n : nat) : (Z.of_nat n =? -1) = false.
Proof. apply Z.eqb_neq; lia. Qed.

Lemma extractSection_some (text sectionHeader : string) :
  extractSection text sectionHeader <> None /\
  (Index text sectionHeader = -1 -> extractSection text sectionHeader = Some "").
Proof.
  split; [|unfold extractSection; intros ->; reflexivity].
  unfold extractSection.
  destruct (find text sectionHeader) as [i|] eqn:Ei;
    [|rewrite (Index_none _ _ Ei); discriminate].
  rewrite (Index_some _ _ _ Ei), nat_neq_m1.
  pose proof (find_bound _ _ _ Ei) as Bi.
  unfold slice_from. rewrite slice_ok by (unfold len; lia).
  set (rest := substring _ _ text).
  assert (Lr : String.length rest = (String.length text - i)%nat)
    by (unfold rest || unfold rest2; rewrite substring_length; unfold len; lia).
  destruct (find rest "$$") as [j|] eqn:Ej;
    [|rewrite (Index_none _ _ Ej); discriminate].
  rewrite (Index_some _ _ _ Ej), nat_neq_m1.
  pose proof (find_bound _ _ _ Ej) as Bj. simpl in Bj.
  rewrite slice_ok by (unfold len; lia).
  set (rest2 := substring _ _ text).
  assert (Lr2 : String.length rest2 = (String.length text - (j + i + 2))%nat)
    by (unfold rest || unfold rest2; rewrite substring_length; unfold len; lia).
  destruct (find rest2 "$$") as [k|] eqn:Ek;
    [|rewrite (Index_none _ _ Ek); discriminate].
  rewrite (Index_some _ _ _ Ek), nat_neq_m1.
  pose proof (find_bound _ _ _ Ek) as Bk. simpl in Bk.
  rewrite slice_ok by (unfold len; lia). discriminate.
Qed.





(** [extractSection] never panics, and returns the empty string when the
    header does not occur in the text. *)
Theorem extractSection_total (text sectionHeader : string) :
  extractSection text sectionHeader <> None /\
  (Index text sectionHeader = -1 -> extractSection text sectionHeader = Some "").
Proof. exact (extractSection_some text sectionHeader). Qed.

End SliceFacts.

Module TrimFacts.
Import GoStrings StringFacts.

Lemma rev_str_app (a b : string) : rev_str (a ++ b) = rev_str b ++ rev_str a.
Proof.
  induction a as [|c a IH]; simpl.
  - rewrite append_nil_r. reflexivity.
  - rewrite IH, append_assoc. reflexivity.
Qed.

Lemma rev_str_involutive (s : string) : rev_str (rev_str s) = s.
Proof. induction s as [|c s IH]; simpl; [reflexivity|]. rewrite rev_str_app, IH. reflexivity. Qed.


Lemma trim_left_app (a b : string) :
  trim_left (a ++ b) = match trim_left a with "" => trim_left b | t => t ++ b end.
Proof.
  induction a as [|c a IH]; [reflexivity|]. simpl.
  destruct (is_space c); [exact IH|reflexivity].
Qed.


(** The right-hand half of [TrimSpace]. *)
Definition trim_right (s : string) : string := rev_str (trim_left (rev_str s)).

Lemma TrimSpace_split (s : string) : TrimSpace s = trim_right (trim_left s).
Proof. reflexivity. Qed.







(** Appending after a non-space byte leaves the left trim alone. *)
Lemma trim_left_app_nonspace (a b : string) (c : ascii) :
  is_space c = false -> trim_left (a ++ String c b) = trim_left a ++ String c b.
Proof.
  intros Hc. rewrite trim_left_app.
  destruct (trim_left a) eqn:E; [simpl; rewrite Hc; reflexivity|reflexivity].
Qed.

Lemma trim_right_app_nonspace (a b : string) (c : ascii) :
  is_space c = false -> trim_right (a ++ String c b) = a ++ String c (trim_right b).
Proof.
  intros Hc. unfold trim_right. rewrite rev_str_app. simpl.
  rewrite append_assoc. simpl.
  rewrite trim_left_app_nonspace by exact Hc.
  rewrite rev_str_app. simpl. rewrite rev_str_involutive, append_assoc. reflexivity.
Qed.

Lemma forall_chars_rev (p : ascii -> bool) (s : string) :
  forall_chars p (rev_str s) = forall_chars p s.
Proof.
  induction s as [|c s IH]; [reflexivity|]. simpl.
  rewrite forall_chars_app, IH. simpl. rewrite andb_true_r, andb_comm. reflexivity.
Qed.

Lemma trim_left_nospace (s : string) :
  forall_chars (fun c => negb (is_space c)) s = true -> trim_left s = s.
Proof.
  destruct s as [|c s]; [reflexivity|]. simpl.
  destruct (is_space c); [discriminate|reflexivity].
Qed.

(** [TrimSpace] leaves a string without white space unchanged. *)
Lemma TrimSpace_nospace (s : string) :
  forall_chars (fun c => negb (is_space c)) s = true -> TrimSpace s = s.
Proof.
  intros H. unfold TrimSpace. rewrite (trim_left_nospace s H).
  rewrite trim_left_nospace by (rewrite forall_chars_rev; exact H).
  apply rev_str_involutive.
Qed.

End TrimFacts.

Module IntFacts.
Import GoStrings StringFacts.









End IntFacts.

Module CommentFacts.
Import GoStrings Parser StringFacts SliceFacts TrimFacts IntFacts.
Local Open Scope Z_scope.

Lemma forall_chars_impl (p q : ascii -> bool) (s : string) :
  (forall c, p c = true -> q c = true) -> forall_chars p s = true -> forall_chars q s = true.
Proof.
  intros Hpq; induction s as [|c s IH]; [reflexivity|]. simpl.
  intros H; apply andb_true_iff in H as [H1 H2]. rewrite (Hpq c H1), (IH H2). reflexivity.
Qed.




Lemma LastIndex_some (s sep : string) (i : nat) :
  rfind s sep = Some i -> LastIndex s sep = Z.of_nat i.
Proof. unfold LastIndex; intros ->; reflexivity. Qed.

Lemma find_char_head (c : ascii) (x : string) :
  find (String c "" ++ x) (String c "") = Some 0%nat.
Proof.
  change (String c "" ++ x) with (String c x). rewrite SizeFacts.find_cons. simpl. rewrite Ascii.eqb_refl. destruct x; reflexivity.
Qed.



End CommentFacts.

Module PanicFacts.
Import GoStrings Parser StringFacts SliceFacts TrimFacts IntFacts CommentFacts.
Local Open Scope Z_scope.

Lemma parsePRCommentBlock_None_iff (block : string) :
  parsePRCommentBlock block = None <->
  Index block "$$" <> -1 /\ LastIndex block "$$" = Index block "$$" + 1.
Proof.
  unfold parsePRCommentBlock.
  destruct (find block "$$") as [i|] eqn:Ei.
  2:{ rewrite (Index_none _ _ Ei). split; [discriminate|intros [H _]; contradiction]. }
  rewrite (Index_some _ _ _ Ei), nat_neq_m1.
  pose proof (find_bound _ _ _ Ei) as Bi. simpl in Bi.
  destruct (rfind block "$$") as [j|] eqn:Ej.
  2:{ unfold LastIndex. rewrite Ej. simpl. split; [discriminate|intros [_ H]; lia]. }
  rewrite (LastIndex_some _ _ _ Ej), nat_neq_m1. cbn [orb].
  pose proof (rfind_bound _ _ _ Ej) as Bj. simpl in Bj.
  destruct (Z.leb_spec (Z.of_nat j) (Z.of_nat i)) as [L|L].
  { split; [discriminate|intros [_ H]; lia]. }
  unfold slice_to. rewrite slice_ok by (unfold len; lia). cbv beta iota.
  destruct (Z.eq_dec (Z.of_nat j) (Z.of_nat i + 1)) as [E|E].
  - unfold slice. rewrite E.
    replace (0 <=? Z.of_nat i + 2) with true by (symmetry; apply Z.leb_le; lia).
    replace (Z.of_nat i + 2 <=? Z.of_nat i + 1) with false by (symmetry; apply Z.leb_gt; lia).
    split; [intros _; split; [lia|reflexivity]|reflexivity].
  - rewrite slice_ok by (unfold len; lia). cbv beta iota.
    split; [|intros [_ H]; contradiction].
    destruct (SplitN _ ":" 3) as [|p0 [|p1 [|p2 ps]]]; try discriminate.
    destruct (Atoi _); discriminate.
Qed.

(** [parsePRCommentBlock] panics exactly when the block contains "$$" and its
    last "$$" overlaps the first one (as in "$$$"), so that [block[start+2:end]]
    is out of range. *)
Theorem parsePRCommentBlock_panic_iff (block : string) :
  parsePRCommentBlock block = None <->
  Index block "$$" <> -1 /\ LastIndex block "$$" = Index block "$$" + 1.
Proof. exact (parsePRCommentBlock_None_iff block). Qed.

Lemma parse_blocks_panic_iff (blocks : list string) :
  parse_blocks blocks = None <-> exists b, In b blocks /\ parsePRCommentBlock b = None.
Proof.
  induction blocks as [|b bs IH]; simpl.
  - split; [discriminate|intros [x [[] _]]].
  - destruct (parsePRCommentBlock b) as [c|] eqn:Eb.
    + destruct (parse_blocks bs) as [r|] eqn:Er.
      * split; [destruct c; discriminate|].
        intros [x [[<-|Hx] Hn]]; [congruence|].
        assert (Some r = None) by (apply IH; eauto). discriminate.
      * split; [|reflexivity]. intros _.
        destruct (proj1 IH eq_refl) as [x [Hx Hn]]. eauto.
    + split; [|reflexivity]. intros _. eauto.
Qed.

(** A model answer is lost as a whole exactly when one of its comment blocks
    makes [parsePRCommentBlock] panic. *)
Theorem parseClaudeResponse_panic_iff (claudeText diff : string) :
  parseClaudeResponse claudeText diff = None <->
  exists b, In b (tl (Split claudeText "PR_COMMENT:")) /\
            Index b "$$" <> -1 /\ LastIndex b "$$" = Index b "$$" + 1.
Proof.
  unfold parseClaudeResponse.
  destruct (extractSection claudeText "SUMMARY:") as [s|] eqn:Es;
    [|exfalso; exact (proj1 (extractSection_some _ _) Es)].
  destruct (extractSection claudeText "POEM:") as [p|] eqn:Ep;
    [|exfalso; exact (proj1 (extractSection_some _ _) Ep)].
  destruct (parse_blocks _) as [cs|] eqn:Ec.
  - split; [discriminate|]. intros [b [Hb Hp]].
    apply parsePRCommentBlock_None_iff in Hp.
    assert (Some cs = None) by (rewrite <- Ec; apply parse_blocks_panic_iff; eauto).
    discriminate.
  - split; [intros _|reflexivity].
    destruct (proj1 (parse_blocks_panic_iff _) Ec) as [b [Hb Hp]].
    exists b. split; [exact Hb|]. apply parsePRCommentBlock_None_iff; exact Hp.
Qed.

Lemma Split_absent (s sep : string) :
  find s sep = None -> Split s sep = [s].
Proof. unfold Split; cbn [split_fuel]. intros ->. reflexivity. Qed.

(** An answer without any of the three markers becomes a review with the
    bare banner as summary and no comment: its text is dropped. *)
Theorem parseClaudeResponse_unstructured (claudeText diff : string) :
  Index claudeText "SUMMARY:" = -1 ->
  Index claudeText "POEM:" = -1 ->
  Index claudeText "PR_COMMENT:" = -1 ->
  parseClaudeResponse claudeText diff = Some {| Summary := branding; Comments := [] |}.
Proof.
  intros H1 H2 H3. unfold parseClaudeResponse.
  rewrite (proj2 (extractSection_some _ _) H1), (proj2 (extractSection_some _ _) H2).
  rewrite Split_absent by (unfold Index in H3; destruct (find claudeText "PR_COMMENT:"); [lia|reflexivity]).
  cbn [tl parse_blocks String.eqb]. rewrite append_nil_r. reflexivity.
Qed.

End PanicFacts.

Module DiffFacts.
Import GoStrings StringFacts SliceFacts TrimFacts IntFacts CommentFacts PanicFacts.
Local Open Scope Z_scope.
Import TenantConfig PRDiff.

Lemma map_bytes_app (f : ascii -> ascii) (a b : string) :
  map_bytes f (a ++ b) = map_bytes f a ++ map_bytes f b.
Proof. induction a as [|c a IH]; simpl; [|rewrite IH]; reflexivity. Qed.

Lemma HasSuffix_app (a e : string) : HasSuffix (a ++ e) e = true.
Proof.
  unfold HasSuffix. rewrite length_app.
  replace (String.length a + String.length e - String.length e)%nat with (String.length a) by lia.
  replace (String.length e <=? String.length a + String.length e)%nat with true
    by (symmetry; apply Nat.leb_le; lia).
  rewrite <- (Nat.add_0_r (String.length a)), substring_app_r, substring_0_all by lia.
  apply String.eqb_refl.
Qed.

Lemma write_files_app (u : string -> string) (l1 l2 : list CommitFile) :
  write_files u (l1 ++ l2)%list = write_files u l1 ++ write_files u l2.
Proof.
  induction l1 as [|f l1 IH]; [reflexivity|]. cbn [app write_files].
  destruct (String.eqb (Patch f) "" || (Changes f >? 500)); [exact IH|].
  destruct (isBinaryFile u (Filename f)); [exact IH|].
  rewrite IH, !append_assoc. reflexivity.
Qed.

(** The diff of a list of files is the concatenation of the diffs of its parts,
    and a listing error is returned wrapped in "failed to get PR files: ". *)
Theorem getPRDiff_compose (u : string -> string) (l1 l2 : list CommitFile) (e : string) :
  getPRDiff u (Ok (l1 ++ l2)%list) = Ok (write_files u l1 ++ write_files u l2) /\
  getPRDiff u (Err e) = Err ("failed to get PR files: " ++ e).
Proof. split; [unfold getPRDiff; rewrite write_files_app|]; reflexivity. Qed.

(** A file with an empty patch, with more than 500 changes or with a binary
    extension contributes nothing to the diff. *)
Theorem getPRDiff_skips (u : string -> string) (l1 l2 : list CommitFile) (f : CommitFile) :
  Patch f = "" \/ Changes f > 500 \/ isBinaryFile u (Filename f) = true ->
  getPRDiff u (Ok (l1 ++ f :: l2)%list) = getPRDiff u (Ok (l1 ++ l2)%list).
Proof.
  intros H. unfold getPRDiff. rewrite !write_files_app. cbn [write_files].
  destruct H as [H|[H|H]].
  - rewrite H. reflexivity.
  - replace (Changes f >? 500) with true by (symmetry; apply Z.gtb_lt; lia).
    rewrite orb_true_r. reflexivity.
  - rewrite H. destruct (_ || _); reflexivity.
Qed.

(** For an ASCII file name, the extension test ignores case: a name ending in
    any upper- or lower-case spelling of a listed extension is binary. *)
Theorem isBinaryFile_case_insensitive (u : string -> string) (s x : string) :
  forall_chars is_ascii (s ++ x) = true ->
  In (ToLower u x) binaryExtensions ->
  isBinaryFile u (s ++ x) = true.
Proof.
  intros Ha Hx. unfold isBinaryFile. unfold ToLower in *.
  rewrite Ha. rewrite forall_chars_app in Ha. apply andb_true_iff in Ha as [_ Ha].
  rewrite Ha in Hx. rewrite map_bytes_app.
  apply existsb_exists. exists (map_bytes lower_ascii x). split; [exact Hx|].
  apply HasSuffix_app.
Qed.

End DiffFacts.

Module PipelineFacts.
Import GoStrings StringFacts SliceFacts TrimFacts IntFacts CommentFacts PanicFacts.
Local Open Scope Z_scope.
Import TenantConfig Pipeline.

Lemma parseClaudeResponse_banner (t d : string) (r : Parser.ReviewResult) :
  Parser.parseClaudeResponse t d = Some r -> exists rest, Parser.Summary r = Parser.branding ++ rest.
Proof.
  unfold Parser.parseClaudeResponse.
  destruct (Parser.extractSection t "SUMMARY:"); [|discriminate].
  destruct (Parser.extractSection t "POEM:"); [|discriminate].
  destruct (Parser.parse_blocks _); [|discriminate].
  intros H; injection H as <-. eexists. reflexivity.
Qed.

Section Run.
Variables (u : string -> string)
  (prompt : string -> string -> string -> string -> string -> string)
  (gpg : string -> string) (send : Claude.ClaudeRequest -> Claude.http_outcome)
  (listFiles : result (list PRDiff.CommitFile))
  (cfg : FileConfig.ReviewConfig) (owner repoName : string) (pr : PullRequest).

(** The three early exits of [processPullRequest]: no repository configuration
    means nothing is done; a pull request over the size limits gets only the
    skip comment; a failure to list the files stops after the listing. *)
Theorem processPullRequest_gates :
  (FileConfig.getRepositoryConfig cfg owner repoName = None ->
     processPullRequest u prompt gpg send listFiles cfg owner repoName pr = []) /\
  (forall rc, FileConfig.getRepositoryConfig cfg owner repoName = Some rc ->
     SizeGate.ShouldReview (SizeGate.checkPRSize (Sizes pr)) = false ->
     processPullRequest u prompt gpg send listFiles cfg owner repoName pr =
       [CreateComment (SizeGate.SkipMessage (SizeGate.checkPRSize (Sizes pr)))]) /\
  (forall rc e, FileConfig.getRepositoryConfig cfg owner repoName = Some rc ->
     SizeGate.ShouldReview (SizeGate.checkPRSize (Sizes pr)) = true ->
     listFiles = Err e ->
     processPullRequest u prompt gpg send listFiles cfg owner repoName pr = [ListFiles]).
Proof.
  unfold processPullRequest. split; [intros ->; reflexivity|]. split.
  - intros rc -> ->. reflexivity.
  - intros rc e -> -> ->. reflexivity.
Qed.

(** Every review posted is a COMMENT review whose body starts with the size
    warning (possibly empty) followed by the bot's banner. *)
Theorem processPullRequest_review_shape (r : PullRequestReviewRequest) :
  In (CreateReview r) (processPullRequest u prompt gpg send listFiles cfg owner repoName pr) ->
  Event r = "COMMENT" /\
  exists rest, ReviewBody r =
    SizeGate.WarningMessage (SizeGate.checkPRSize (Sizes pr)) ++ Parser.branding ++ rest.
Proof.
  unfold processPullRequest.
  destruct (FileConfig.getRepositoryConfig cfg owner repoName) as [rc|]; [|intros []].
  destruct (negb _); [intros [H|[]]; discriminate|].
  destruct (PRDiff.getPRDiff u listFiles) as [diff|e]; [|intros [H|[]]; discriminate].
  destruct (getAIReviewWithConfig prompt gpg send diff (Title pr) (Body pr) rc) as [rv|] eqn:Er.
  2:{ intros [H|[H|[H|[]]]]; discriminate. }
  intros [H|[H|[H|[]]]]; try discriminate. injection H as <-.
  unfold getAIReviewWithConfig in Er. apply parseClaudeResponse_banner in Er as [rest Hr].
  split; [destruct (negb _); reflexivity|].
  exists rest. destruct (String.eqb_spec (SizeGate.WarningMessage (SizeGate.checkPRSize (Sizes pr))) "") as [E|E].
  - rewrite E. simpl. exact Hr.
  - simpl. rewrite Hr. reflexivity.
Qed.

Lemma callClaude_failure_text (diff title body : string) (c : Claude.RepositoryConfig) :
  (send (Claude.request prompt gpg diff title body c) = Claude.NetworkError \/
   (exists code d, send (Claude.request prompt gpg diff title body c) = Claude.Response code d
                   /\ code <> 200) \/
   send (Claude.request prompt gpg diff title body c) = Claude.Response 200 None \/
   send (Claude.request prompt gpg diff title body c) = Claude.Response 200 (Some [])) ->
  Parser.parseClaudeResponse (Claude.callClaudeAPIWithConfig prompt gpg send diff title body c) diff
    = Some {| Parser.Summary := Parser.branding; Parser.Comments := [] |}.
Proof.
  unfold Claude.callClaudeAPIWithConfig.
  intros [H|[[code [d [H N]]]|[H|H]]]; rewrite H.
  - vm_compute. reflexivity.
  - replace (negb (code =? 200)) with true by (symmetry; apply negb_true_iff, Z.eqb_neq; exact N).
    vm_compute. reflexivity.
  - vm_compute. reflexivity.
  - vm_compute. reflexivity.
Qed.

(** When the model call fails (network error, non-200 status, no body or an
    empty content list), a review is still posted: its body is the size
    warning and the banner alone, with no inline comment. *)
Theorem processPullRequest_model_failure (rc : FileConfig.RepositoryConfig) (diff : string) :
  FileConfig.getRepositoryConfig cfg owner repoName = Some rc ->
  SizeGate.ShouldReview (SizeGate.checkPRSize (Sizes pr)) = true ->
  PRDiff.getPRDiff u listFiles = Ok diff ->
  let req := Claude.request prompt gpg diff (Title pr) (Body pr) (claude_config rc) in
  (send req = Claude.NetworkError \/
   (exists code d, send req = Claude.Response code d /\ code <> 200) \/
   send req = Claude.Response 200 None \/ send req = Claude.Response 200 (Some [])) ->
  processPullRequest u prompt gpg send listFiles cfg owner repoName pr =
    [ListFiles; ClaudeCall req;
     CreateReview {| ReviewBody := SizeGate.WarningMessage (SizeGate.checkPRSize (Sizes pr))
                                   ++ Parser.branding;
                     Event := "COMMENT"; DraftComments := [] |}].
Proof.
  intros Hc Hs Hd req Hf. unfold processPullRequest. rewrite Hc, Hs, Hd. cbn [negb].
  unfold getAIReviewWithConfig. rewrite callClaude_failure_text by exact Hf.
  destruct (String.eqb_spec (SizeGate.WarningMessage (SizeGate.checkPRSize (Sizes pr))) "") as [E|E].
  - rewrite E. reflexivity.
  - reflexivity.
Qed.

End Run.

End PipelineFacts.

Module HandlerFacts.
Import GoStrings StringFacts SliceFacts TrimFacts IntFacts CommentFacts PanicFacts.
Local Open Scope Z_scope.
Import Webhook WebhookHandler.

Lemma EncodeToString_nonempty (b : string) : b <> "" -> EncodeToString b <> "".
Proof. destruct b; [congruence|]. discriminate. Qed.

Lemma substring_7_app (p x : string) :
  String.length p = 7%nat -> substring 0 7 (p ++ x) = p /\ substring 7 (String.length (p ++ x)) (p ++ x) = x.
Proof.
  intros Hp. rewrite <- Hp. split; [apply substring_prefix|].
  apply substring_suffix. rewrite length_app; lia.
Qed.

Lemma substring_split (s : string) (k n : nat) :
  (k <= String.length s)%nat -> (String.length s <= k + n)%nat ->
  substring 0 k s ++ substring k n s = s.
Proof.
  revert k; induction s as [|c s IH]; intros k H1 H2.
  - simpl in H1. assert (k = 0%nat) as -> by lia. destruct n; reflexivity.
  - destruct k as [|k].
    + change (substring 0 n (String c s) = String c s). apply substring_0_all. lia.
    + simpl in *. rewrite IH by lia. reflexivity.
Qed.

(** For a non-empty HMAC, a signature is accepted exactly when it is the hex
    digest, with or without the "sha256=" prefix. *)
Theorem validateWebhookSignature_iff (hmac_sha256 : string -> string -> string)
  (secret payload signature : string) :
  hmac_sha256 secret payload <> "" ->
  validateWebhookSignature hmac_sha256 secret payload signature = true <->
  signature = EncodeToString (hmac_sha256 secret payload) \/
  signature = "sha256=" ++ EncodeToString (hmac_sha256 secret payload).
Proof.
  intros Hne. set (hex := EncodeToString (hmac_sha256 secret payload)).
  assert (Hhex : hex <> "") by (apply EncodeToString_nonempty; exact Hne).
  assert (Hpre : String.eqb (substring 0 7 hex) "sha256=" = false)
    by (apply WebhookFacts.EncodeToString_no_prefix; exact Hne).
  unfold validateWebhookSignature. fold hex.
  destruct (String.eqb_spec signature "") as [->|Hs].
  { split; [discriminate|]. intros [H|H]; [congruence|discriminate]. }
  destruct ((7 <? len signature) && String.eqb (substring 0 7 signature) "sha256=") eqn:E.
  - apply andb_true_iff in E as [E1 E2]. apply String.eqb_eq in E2.
    assert (Hsplit : signature = "sha256=" ++ substring 7 (String.length signature) signature).
    { rewrite <- E2. unfold len in E1. apply Z.ltb_lt in E1.
      symmetry; apply substring_split; lia. }
    rewrite String.eqb_eq. split.
    + intros H. right. rewrite Hsplit at 1. rewrite H. reflexivity.
    + intros [H|H].
      * exfalso. rewrite H in E2. rewrite E2 in Hpre. discriminate.
      * rewrite H. exact (proj2 (substring_7_app "sha256=" hex eq_refl)).
  - rewrite String.eqb_eq. split; [intros H; left; exact H|].
    intros [H|H]; [exact H|].
    exfalso. rewrite H in E.
    rewrite (proj1 (substring_7_app "sha256=" hex eq_refl)), String.eqb_refl, andb_true_r in E.
    unfold len in E. rewrite length_app in E. apply Z.ltb_ge in E.
    destruct hex; [congruence|]. simpl in E. lia.
Qed.

Section Handler.
Variables (hmac_sha256 : string -> string -> string)
  (Unmarshal : string -> option WebhookPayload).

(** A request is dispatched for review only if it is a POST whose body was read,
    whose signature checks out when a secret is set, which decodes to a payload
    that triggers a review; the answer is then 200 and the installation id
    defaults to 0. *)
Theorem handleWebhook_dispatch (secret : string) (r : Request) (resp : response) (d : Dispatch) :
  handleWebhook hmac_sha256 Unmarshal secret r = (resp, Some d) ->
  Method r = "POST" /\
  exists body payload,
    ReqBody r = Some body /\
    (secret <> "" -> validateWebhookSignature hmac_sha256 secret body (SignatureHeader r) = true) /\
    Unmarshal body = Some payload /\
    shouldTriggerReview (Action payload) (PullRequest payload) = true /\
    resp = WriteHeader 200 /\
    d = {| d_Repository := Repository payload; d_PullRequest := PullRequest payload;
           d_installationID := match Installation payload with Some id => id | None => 0 end |}.
Proof.
  unfold handleWebhook.
  destruct (String.eqb_spec (Method r) "POST") as [HM|HM]; [|discriminate].
  destruct (ReqBody r) as [body|] eqn:HB; [|discriminate]. cbn [negb].
  destruct (String.eqb_spec secret "") as [Hs|Hs];
    [|destruct (validateWebhookSignature hmac_sha256 secret body (SignatureHeader r)) eqn:Hv;
      [|discriminate]]; cbn [negb andb];
  (destruct (Unmarshal body) as [payload|] eqn:HU; [|discriminate]);
  (destruct (shouldTriggerReview (Action payload) (PullRequest payload)) eqn:Ht; [|discriminate]);
  cbn [negb]; intros H; injection H as <- <-;
  (split; [exact HM|]); exists body, payload;
  (repeat split); try assumption; try reflexivity; intros; congruence.
Qed.

(** With a secret set, a POST whose signature fails, in particular one without
    a signature header, is answered 401 and not dispatched. *)
Theorem handleWebhook_rejects_unsigned (secret body : string) (r : Request) :
  secret <> "" -> Method r = "POST" -> ReqBody r = Some body ->
  (validateWebhookSignature hmac_sha256 secret body (SignatureHeader r) = false ->
   handleWebhook hmac_sha256 Unmarshal secret r = (HttpError 401 "Unauthorized", None)) /\
  (SignatureHeader r = "" ->
   handleWebhook hmac_sha256 Unmarshal secret r = (HttpError 401 "Unauthorized", None)).
Proof.
  intros Hs HM HB. unfold handleWebhook. rewrite HM, HB. cbn [String.eqb negb].
  assert (String.eqb secret "" = false) as -> by (apply String.eqb_neq; exact Hs).
  split.
  - intros ->. reflexivity.
  - intros ->. reflexivity.
Qed.

(** Without a secret, neither the signature header nor the HMAC affects the
    answer or the dispatch. *)
Theorem handleWebhook_no_secret (hmac2 : string -> string -> string) (r : Request) (sig : string) :
  handleWebhook hmac_sha256 Unmarshal "" r =
  handleWebhook hmac2 Unmarshal ""
    {| Method := Method r; ReqBody := ReqBody r; SignatureHeader := sig |}.
Proof. unfold handleWebhook. simpl. reflexivity. Qed.

End Handler.

End HandlerFacts.

Module EnvFacts.
Import GoStrings StringFacts SliceFacts TrimFacts IntFacts CommentFacts PanicFacts.
Local Open Scope Z_scope.
Import EnvFile.

Lemma TrimSpace_edges (c d : ascii) (m : string) :
  is_space c = false -> is_space d = false ->
  TrimSpace (String c (m ++ String d "")) = String c (m ++ String d "").
Proof.
  intros Hc Hd. rewrite TrimSpace_split. cbn [trim_left]. rewrite Hc.
  change (String c (m ++ String d "")) with (String c m ++ String d "").
  rewrite trim_right_app_nonspace by exact Hd. reflexivity.
Qed.

Lemma SplitN_char2 (c : ascii) (a b : string) :
  forall_chars (fun d => negb (Ascii.eqb d c)) a = true ->
  SplitN (a ++ String c "" ++ b) (String c "") 2 = [a; b].
Proof.
  intros Ha. unfold SplitN. cbn [Nat.pred split_fuel].
  rewrite (find_char_app a _ c Ha), find_char_head. cbn [option_map].
  rewrite Nat.add_0_r, substring_prefix.
  unfold after. replace (String.length a + String.length (String c ""))%nat
    with (String.length (a ++ String c "")) by (rewrite length_app; reflexivity).
  rewrite <- (append_assoc a (String c "")), substring_suffix
    by (rewrite !length_app; simpl; lia).
  reflexivity.
Qed.

Lemma get_app_len (v : string) (q : ascii) : String.get (String.length v) (v ++ String q "") = Some q.
Proof. induction v as [|c v IH]; [reflexivity|]. exact IH. Qed.

Lemma strip_quotes_quoted (q : ascii) (v : string) :
  q = dq_char \/ q = "'"%char -> strip_quotes (String q (v ++ String q "")) = v.
Proof.
  intros Hq. unfold strip_quotes.
  assert (Hn : String.length (String q (v ++ String q "")) = S (S (String.length v)))
    by (simpl; rewrite length_app; simpl; lia).
  rewrite Hn. replace (S (S (String.length v)) - 1)%nat with (S (String.length v)) by lia.
  replace (S (S (String.length v)) - 2)%nat with (String.length v) by lia.
  unfold byte_at. cbn [String.get]. rewrite get_app_len.
  replace ((2 <=? S (S (String.length v)))%nat) with true by (symmetry; apply Nat.leb_le; lia).
  assert (Hb : (Ascii.eqb q dq_char && Ascii.eqb q dq_char || Ascii.eqb q "'" && Ascii.eqb q "'")%bool = true)
    by (destruct Hq as [->| ->]; reflexivity).
  cbn [andb]. rewrite Hb. cbn [substring]. apply substring_prefix.
Qed.

Lemma load_line_assign (env : environ) (k value : string) :
  k <> "" ->
  forall_chars (fun c => negb (is_space c) && negb (Ascii.eqb c "=") && negb (Ascii.eqb c nul)) k
    = true ->
  HasPrefix k "#" = false ->
  TrimSpace (k ++ "=" ++ value) = k ++ "=" ++ value ->
  load_line env (k ++ "=" ++ value) = Setenv env k (strip_quotes (TrimSpace value)).
Proof.
  intros Hk Hc Hh Ht. unfold load_line. rewrite Ht.
  destruct k as [|c0 k']; [congruence|].
  replace (String.eqb (String c0 k' ++ "=" ++ value) "") with false by reflexivity.
  rewrite (HasPrefix_app_long (String c0 k') ("=" ++ value) "#") by (simpl; lia).
  rewrite Hh. cbn [orb].
  rewrite SplitN_char2.
  2:{ eapply forall_chars_impl; [|exact Hc]. intros c H.
      apply andb_true_iff in H as [H _]. apply andb_true_iff in H as [_ H]. exact H. }
  rewrite TrimSpace_nospace; [reflexivity|].
  eapply forall_chars_impl; [|exact Hc]. intros c H.
  apply andb_true_iff in H as [H _]. apply andb_true_iff in H as [H _]. exact H.
Qed.

(** A final line [KEY="value"] or [KEY='value'] sets [KEY] to the value without
    its quotes, and a final line [KEY=] makes [getEnv] fall back to its
    default.  The key is ASCII: the line then begins and ends with an ASCII
    byte that is not white space, so Go's [strings.TrimSpace] stays on its
    ASCII path and leaves the line, the key and the quoted value as they
    are. *)
Theorem loadEnvFile_last_assignment (env : environ) (ls : list string) (k v : string)
  (q : ascii) (d : string) :
  k <> "" ->
  forall_chars (fun c => negb (is_space c) && negb (Ascii.eqb c "=") && negb (Ascii.eqb c nul)) k
    = true ->
  forall_chars is_ascii k = true ->
  HasPrefix k "#" = false ->
  forall_chars (fun c => negb (Ascii.eqb c nul)) v = true ->
  q = dq_char \/ q = "'"%char ->
  Getenv (loadEnvFile env (Some (ls ++ [(k ++ "=" ++ String q (v ++ String q ""))%string])%list)) k = v /\
  getEnv (loadEnvFile env (Some (ls ++ [(k ++ "=")%string])%list)) k d = d.
Proof.
  intros Hk Hc Ha Hh Hv Hq.
  assert (Hq' : is_space q = false) by (destruct Hq as [->| ->]; reflexivity).
  assert (Hc0 : exists c0 k', k = String c0 k' /\ is_space c0 = false).
  { destruct k as [|c0 k']; [congruence|]. exists c0, k'. split; [reflexivity|].
    simpl in Hc. destruct (is_space c0); [discriminate|reflexivity]. }
  destruct Hc0 as [c0 [k' [Ek Hs0]]].
  assert (Hkey : forall_chars (fun c => negb (Ascii.eqb c "=") && negb (Ascii.eqb c nul)) k = true).
  { eapply forall_chars_impl; [|exact Hc]. intros c H.
    apply andb_true_iff in H as [H1 H2]. apply andb_true_iff in H1 as [_ H1].
    rewrite H1, H2. reflexivity. }
  assert (Hset : forall e value, forall_chars (fun c => negb (Ascii.eqb c nul)) value = true ->
                 Setenv e k value = (k, value) :: e).
  { intros e value Hval. unfold Setenv. rewrite Hkey, Hval.
    replace (String.eqb k "") with false by (symmetry; apply String.eqb_neq; exact Hk).
    reflexivity. }
  unfold loadEnvFile. rewrite !fold_left_app. cbn [fold_left]. split.
  - rewrite load_line_assign; try assumption.
    + rewrite TrimSpace_edges by assumption. rewrite strip_quotes_quoted by exact Hq.
      rewrite Hset by exact Hv. unfold Getenv. simpl. rewrite String.eqb_refl. reflexivity.
    + rewrite Ek. replace (String c0 k' ++ "=" ++ String q (v ++ String q ""))
        with (String c0 ((k' ++ "=" ++ String q v) ++ String q ""))
        by (simpl; rewrite !append_assoc; reflexivity).
      apply TrimSpace_edges; assumption.
  - change (k ++ "=") with (k ++ "=" ++ "").
    rewrite load_line_assign; try assumption.
    + rewrite Hset by reflexivity. unfold getEnv, Getenv. simpl. rewrite String.eqb_refl. reflexivity.
    + rewrite Ek. replace (String c0 k' ++ "=" ++ "") with (String c0 (k' ++ String "=" ""))
        by reflexivity.
      apply TrimSpace_edges; [assumption|reflexivity].
Qed.

(** Blank lines, comment lines and lines without '=' leave the environment
    unchanged. *)
Theorem loadEnvFile_ignored_lines (env : environ) (l1 l2 : list string) (line : string) :
  TrimSpace line = "" \/ HasPrefix (TrimSpace line) "#" = true \/ Index (TrimSpace line) "=" = -1 ->
  loadEnvFile env (Some (l1 ++ line :: l2)%list) = loadEnvFile env (Some (l1 ++ l2)%list).
Proof.
  intros H. unfold loadEnvFile. rewrite !fold_left_app. cbn [fold_left].
  f_equal. unfold load_line.
  destruct H as [H|[H|H]].
  - rewrite H. reflexivity.
  - rewrite H, orb_true_r. reflexivity.
  - destruct (_ || _); [reflexivity|].
    unfold SplitN. cbn [Nat.pred split_fuel].
    unfold Index in H. destruct (find (TrimSpace line) "="); [lia|reflexivity].
Qed.

End EnvFacts.

Module TenantExtraFacts.
Import GoStrings StringFacts SliceFacts TrimFacts IntFacts CommentFacts PanicFacts.
Local Open Scope Z_scope.
Import TenantConfig.

Lemma filter_head {A} (p : A -> bool) (l t : list A) (x : A) :
  filter p l = x :: t -> In x l /\ p x = true.
Proof.
  intros H. apply (filter_In p x l). rewrite H. left; reflexivity.
Qed.

(** For a repository name made of the characters GitHub allows, a
    configuration returned by [GetRepositoryConfig] comes from a repository
    row with that name, of an organization row of the installation row with
    the requested installation id, and carries that row's precision and
    custom prompt. *)
Theorem GetRepositoryConfig_provenance (db : Database) (orgName repoName : string)
  (installationID : Z) (rc : RepositoryConfig) :
  url_plain repoName = true ->
  GetRepositoryConfig db orgName repoName installationID = Ok rc ->
  exists inst o r,
    In inst (installation db) /\ inst_InstallationID inst = installationID /\
    In o (organization db) /\ org_installation_id o = inst_ID inst /\
    In r (repository db) /\ repo_organization_id r = org_ID o /\ repo_Name r = repoName /\
    rc = {| Name := repoName; Precision := repo_Precision r; CustomPrompt := repo_CustomPrompt r |}.
Proof.
  unfold GetRepositoryConfig, GetInstallationByInstallationID,
    GetOrganizationByInstallationAndName, GetRepositoryByOrganizationAndName.
  intros Hp. cbv zeta. rewrite Hp.
  destruct (filter _ (installation db)) as [|inst it] eqn:Ei; [discriminate|].
  destruct (filter _ (organization db)) as [|o ot] eqn:Eo; [discriminate|].
  destruct (filter _ (repository db)) as [|r rt] eqn:Er; [discriminate|].
  intros H; injection H as <-.
  apply filter_head in Ei as [Ii Pi]. apply filter_head in Eo as [Io Po].
  apply filter_head in Er as [Ir Pr].
  apply Z.eqb_eq in Pi, Po. apply andb_true_iff in Pr as [Pr1 Pr2].
  apply Z.eqb_eq in Pr1. apply String.eqb_eq in Pr2.
  exists inst, o, r. rewrite Pr2. repeat split; assumption.
Qed.

End TenantExtraFacts.

Module SizeExtraFacts.
Import GoStrings StringFacts SliceFacts TrimFacts IntFacts CommentFacts PanicFacts.
Local Open Scope Z_scope.
Import SizeGate.

(** A skipped pull request has a skip message and no warning; a reviewed one has
    no skip message, and a warning exactly when it exceeds 20 files or 400
    additions. *)
Theorem checkPRSize_messages (pr : PullRequest) :
  (ShouldReview (checkPRSize pr) = false ->
     WarningMessage (checkPRSize pr) = "" /\ SkipMessage (checkPRSize pr) <> "") /\
  (ShouldReview (checkPRSize pr) = true ->
     SkipMessage (checkPRSize pr) = "" /\
     (WarningMessage (checkPRSize pr) = "" <-> ChangedFiles pr <= 20 /\ Additions pr <= 400)).
Proof.
  unfold checkPRSize. cbv zeta. rewrite !Z.gtb_ltb.
  unfold MAX_FILES_FOR_REVIEW, MAX_ADDITIONS_FOR_REVIEW, MAX_TOTAL_CHANGES,
    WARN_FILES_THRESHOLD, WARN_ADDITIONS_THRESHOLD.
  destruct (Z.ltb_spec 25 (ChangedFiles pr)).
  { cbn [ShouldReview WarningMessage SkipMessage]. split; [|discriminate].
    intros _. split; [reflexivity|]. unfold files_skip_message. discriminate. }
  destruct (Z.ltb_spec 800 (Additions pr)).
  { cbn [ShouldReview WarningMessage SkipMessage]. split; [|discriminate].
    intros _. split; [reflexivity|]. unfold additions_skip_message. discriminate. }
  destruct (Z.ltb_spec 1200 (add_int (Additions pr) (Deletions pr))).
  { cbn [ShouldReview WarningMessage SkipMessage]. split; [|discriminate].
    intros _. split; [reflexivity|]. unfold total_skip_message. discriminate. }
  cbn [ShouldReview WarningMessage SkipMessage]. split; [discriminate|].
  intros _. split; [reflexivity|].
  destruct (Z.ltb_spec 20 (ChangedFiles pr)); destruct (Z.ltb_spec 400 (Additions pr));
    cbn [app].
  - split; [discriminate|intros; lia].
  - split; [discriminate|intros; lia].
  - split; [discriminate|intros; lia].
  - split; [intros _; split; assumption|reflexivity].
Qed.

End SizeExtraFacts.

(** ** Instances of the further properties *)
Module ExtraWitnesses.
Import GoStrings.
Local Open Scope Z_scope.

Lemma extractSection_total_witness :
  Index "no markers here" "SUMMARY:" = -1 /\
  Parser.extractSection "no markers here" "SUMMARY:" = Some "".
Proof.
  split; [vm_compute; reflexivity|].
  apply (proj2 (SliceFacts.extractSection_total "no markers here" "SUMMARY:")).
  vm_compute; reflexivity.
Defined.



Lemma parseClaudeResponse_unstructured_witness :
  Index "Error generating AI review" "SUMMARY:" = -1 /\
  Index "Error generating AI review" "POEM:" = -1 /\
  Index "Error generating AI review" "PR_COMMENT:" = -1 /\
  Parser.parseClaudeResponse "Error generating AI review" "diff" =
    Some {| Parser.Summary := Parser.branding; Parser.Comments := [] |}.
Proof.
  split; [vm_compute; reflexivity|]. split; [vm_compute; reflexivity|].
  split; [vm_compute; reflexivity|].
  apply PanicFacts.parseClaudeResponse_unstructured; vm_compute; reflexivity.
Defined.

(** Stand-in for [unicode.ToLower]; the file names below are ASCII, for
    which [strings.ToLower] does not call it. *)
Definition ascii_names (s : string) : string := s.

Definition logo_file : PRDiff.CommitFile :=
  {| PRDiff.Filename := "assets/Logo.PNG"; PRDiff.Patch := "Binary files differ";
     PRDiff.Changes := 0 |}.

Definition main_file : PRDiff.CommitFile :=
  {| PRDiff.Filename := "main.go"; PRDiff.Patch := "@@ -1 +1 @@";
     PRDiff.Changes := 2 |}.

Lemma getPRDiff_skips_witness :
  PRDiff.isBinaryFile ascii_names (PRDiff.Filename logo_file) = true /\
  PRDiff.getPRDiff ascii_names (TenantConfig.Ok ([] ++ logo_file :: [main_file])%list) =
  PRDiff.getPRDiff ascii_names (TenantConfig.Ok ([] ++ [main_file])%list).
Proof.
  split; [vm_compute; reflexivity|].
  apply DiffFacts.getPRDiff_skips. right; right. vm_compute; reflexivity.
Defined.

Lemma isBinaryFile_case_insensitive_witness :
  forall_chars is_ascii ("assets/Logo" ++ ".PNG") = true /\
  PRDiff.isBinaryFile ascii_names ("assets/Logo" ++ ".PNG") = true.
Proof.
  split; [vm_compute; reflexivity|].
  apply DiffFacts.isBinaryFile_case_insensitive; [vm_compute; reflexivity|].
  vm_compute. repeat (first [left; reflexivity | right]).
Defined.

(** A prompt template and guideline table for the runs below. *)
Definition sample_prompt (title body guide diff custom : string) : string :=
  title ++ body ++ guide ++ diff ++ custom.
Definition sample_guidelines (precision : string) : string := precision.

Definition network_down (_ : Claude.ClaudeRequest) : Claude.http_outcome := Claude.NetworkError.
Definition answering (text : string) (_ : Claude.ClaudeRequest) : Claude.http_outcome :=
  Claude.Response 200 (Some [text]).

Definition sample_repo_cfg : FileConfig.RepositoryConfig :=
  {| FileConfig.Name := "*"; FileConfig.Precision := "medium"; FileConfig.CustomPrompt := "" |}.
Definition sample_cfg : FileConfig.ReviewConfig :=
  {| FileConfig.Organizations :=
       [{| FileConfig.OrgName := "acme"; FileConfig.Repositories := [sample_repo_cfg] |}] |}.
Definition sample_files : TenantConfig.result (list PRDiff.CommitFile) :=
  TenantConfig.Ok [main_file].

Definition sample_pr : Pipeline.PullRequest :=
  {| Pipeline.Number := 7; Pipeline.Title := "Add cache"; Pipeline.Body := "Caches lookups";
     Pipeline.Sizes := {| SizeGate.ChangedFiles := 2; SizeGate.Additions := 40;
                          SizeGate.Deletions := 3 |} |}.

(** 22 files: reviewed, with a size warning. *)
Definition wide_sizes : SizeGate.PullRequest :=
  {| SizeGate.ChangedFiles := 22; SizeGate.Additions := 100; SizeGate.Deletions := 0 |}.
Definition wide_pr : Pipeline.PullRequest :=
  {| Pipeline.Number := 8; Pipeline.Title := "Split module"; Pipeline.Body := "";
     Pipeline.Sizes := wide_sizes |}.

Lemma processPullRequest_gates_witness :
  FileConfig.getRepositoryConfig sample_cfg "other" "app" = None /\
  Pipeline.processPullRequest ascii_names sample_prompt sample_guidelines network_down
    sample_files sample_cfg "other" "app" sample_pr = [].
Proof.
  split; [reflexivity|].
  apply (proj1 (PipelineFacts.processPullRequest_gates ascii_names sample_prompt
                  sample_guidelines network_down sample_files sample_cfg "other" "app" sample_pr)).
  reflexivity.
Defined.

Definition summary_answer : string := "SUMMARY:$$ Looks fine. $$".

Definition posted_review : Pipeline.PullRequestReviewRequest :=
  Eval vm_compute in
  match rev (Pipeline.processPullRequest ascii_names sample_prompt sample_guidelines
               (answering summary_answer) sample_files sample_cfg "acme" "app" wide_pr) with
  | Pipeline.CreateReview r :: _ => r
  | _ => {| Pipeline.ReviewBody := ""; Pipeline.Event := ""; Pipeline.DraftComments := [] |}
  end.

Lemma processPullRequest_review_shape_witness :
  In (Pipeline.CreateReview posted_review)
    (Pipeline.processPullRequest ascii_names sample_prompt sample_guidelines
       (answering summary_answer) sample_files sample_cfg "acme" "app" wide_pr) /\
  Pipeline.Event posted_review = "COMMENT" /\
  exists rest, Pipeline.ReviewBody posted_review =
    SizeGate.WarningMessage (SizeGate.checkPRSize wide_sizes) ++ Parser.branding ++ rest.
Proof.
  assert (H : In (Pipeline.CreateReview posted_review)
                (Pipeline.processPullRequest ascii_names sample_prompt sample_guidelines
                   (answering summary_answer) sample_files sample_cfg "acme" "app" wide_pr))
    by (vm_compute; right; right; left; reflexivity).
  split; [exact H|].
  exact (PipelineFacts.processPullRequest_review_shape ascii_names sample_prompt sample_guidelines
           (answering summary_answer) sample_files sample_cfg "acme" "app" wide_pr posted_review H).
Defined.

Lemma processPullRequest_model_failure_witness :
  FileConfig.getRepositoryConfig sample_cfg "acme" "app" = Some sample_repo_cfg /\
  Pipeline.processPullRequest ascii_names sample_prompt sample_guidelines network_down
    sample_files sample_cfg "acme" "app" sample_pr =
  [Pipeline.ListFiles;
   Pipeline.ClaudeCall (Claude.request sample_prompt sample_guidelines
                          (PRDiff.write_files ascii_names [main_file])
                          (Pipeline.Title sample_pr) (Pipeline.Body sample_pr)
                          (Pipeline.claude_config sample_repo_cfg));
   Pipeline.CreateReview
     {| Pipeline.ReviewBody := SizeGate.WarningMessage (SizeGate.checkPRSize (Pipeline.Sizes sample_pr))
                              ++ Parser.branding;
        Pipeline.Event := "COMMENT"; Pipeline.DraftComments := [] |}].
Proof.
  split; [reflexivity|].
  apply (PipelineFacts.processPullRequest_model_failure ascii_names sample_prompt sample_guidelines
           network_down sample_files sample_cfg "acme" "app" sample_pr sample_repo_cfg
           (PRDiff.write_files ascii_names [main_file]));
    [reflexivity | reflexivity | reflexivity | left; reflexivity].
Defined.

(** A stand-in digest function for the webhook runs. *)
Definition sample_digest (_ _ : string) : string := "0123456789abcdef0123456789abcdef".

Lemma validateWebhookSignature_iff_witness :
  sample_digest "s3cret" "{}" <> "" /\
  Webhook.validateWebhookSignature sample_digest "s3cret" "{}"
    ("sha256=" ++ Webhook.EncodeToString (sample_digest "s3cret" "{}")) = true.
Proof.
  split; [discriminate|].
  apply (proj2 (HandlerFacts.validateWebhookSignature_iff sample_digest "s3cret" "{}"
                  ("sha256=" ++ Webhook.EncodeToString (sample_digest "s3cret" "{}"))
                  ltac:(discriminate))).
  right; reflexivity.
Defined.

Definition opened_payload : WebhookHandler.WebhookPayload :=
  {| WebhookHandler.Action := "opened";
     WebhookHandler.PullRequest := Some {| Webhook.Draft := Some false |};
     WebhookHandler.Repository := Some "acme/app";
     WebhookHandler.Installation := None |}.
Definition decode_opened (_ : string) : option WebhookHandler.WebhookPayload := Some opened_payload.
Definition post_request (sig : string) : WebhookHandler.Request :=
  {| WebhookHandler.Method := "POST"; WebhookHandler.ReqBody := Some "{}";
     WebhookHandler.SignatureHeader := sig |}.

Lemma handleWebhook_dispatch_witness :
  WebhookHandler.handleWebhook sample_digest decode_opened "" (post_request "") =
    (WebhookHandler.WriteHeader 200,
     Some {| WebhookHandler.d_Repository := Some "acme/app";
             WebhookHandler.d_PullRequest := Some {| Webhook.Draft := Some false |};
             WebhookHandler.d_installationID := 0 |}) /\
  WebhookHandler.Method (post_request "") = "POST".
Proof.
  assert (H : WebhookHandler.handleWebhook sample_digest decode_opened "" (post_request "") =
    (WebhookHandler.WriteHeader 200,
     Some {| WebhookHandler.d_Repository := Some "acme/app";
             WebhookHandler.d_PullRequest := Some {| Webhook.Draft := Some false |};
             WebhookHandler.d_installationID := 0 |})) by reflexivity.
  split; [exact H|].
  exact (proj1 (HandlerFacts.handleWebhook_dispatch sample_digest decode_opened "" (post_request "")
                  _ _ H)).
Defined.

Lemma handleWebhook_rejects_unsigned_witness :
  "s3cret" <> "" /\
  WebhookHandler.handleWebhook sample_digest decode_opened "s3cret" (post_request "") =
    (WebhookHandler.HttpError 401 "Unauthorized", None).
Proof.
  split; [discriminate|].
  apply (proj2 (HandlerFacts.handleWebhook_rejects_unsigned sample_digest decode_opened "s3cret" "{}"
                  (post_request "") ltac:(discriminate) eq_refl eq_refl)).
  reflexivity.
Defined.

Lemma loadEnvFile_last_assignment_witness :
  EnvFile.Getenv (EnvFile.loadEnvFile []
    (Some (["# settings"] ++ [("PORT" ++ "=" ++ String EnvFile.dq_char ("9000" ++ String EnvFile.dq_char ""))%string])%list))
    "PORT" = "9000" /\
  EnvFile.getEnv (EnvFile.loadEnvFile [] (Some (["# settings"] ++ [("PORT" ++ "=")%string])%list))
    "PORT" "8080" = "8080".
Proof.
  apply (EnvFacts.loadEnvFile_last_assignment [] ["# settings"] "PORT" "9000" EnvFile.dq_char "8080");
    [discriminate | reflexivity | reflexivity | reflexivity | reflexivity | left; reflexivity].
Defined.

Lemma loadEnvFile_ignored_lines_witness :
  EnvFile.loadEnvFile [] (Some (["PORT=9000"] ++ "  # comment" :: ["HOST=localhost"])%list) =
  EnvFile.loadEnvFile [] (Some (["PORT=9000"] ++ ["HOST=localhost"])%list).
Proof.
  apply EnvFacts.loadEnvFile_ignored_lines. right; left. vm_compute; reflexivity.
Defined.

Definition sample_db : TenantConfig.Database :=
  {| TenantConfig.installation := [{| TenantConfig.inst_ID := 10; TenantConfig.inst_InstallationID := 1 |}];
     TenantConfig.organization :=
       [{| TenantConfig.org_ID := 100; TenantConfig.org_Name := "acme";
           TenantConfig.org_installation_id := 10 |}];
     TenantConfig.repository :=
       [{| TenantConfig.repo_ID := 1; TenantConfig.repo_Name := "app";
           TenantConfig.repo_Precision := "strict"; TenantConfig.repo_CustomPrompt := "";
           TenantConfig.repo_organization_id := 100 |}];
     TenantConfig.repository_answer := fun _ => [] |}.

Lemma GetRepositoryConfig_provenance_witness :
  TenantConfig.url_plain "app" = true /\
  TenantConfig.GetRepositoryConfig sample_db "acme" "app" 1 =
    TenantConfig.Ok {| TenantConfig.Name := "app"; TenantConfig.Precision := "strict";
                       TenantConfig.CustomPrompt := "" |} /\
  exists inst, In inst (TenantConfig.installation sample_db) /\
               TenantConfig.inst_InstallationID inst = 1.
Proof.
  assert (H : TenantConfig.GetRepositoryConfig sample_db "acme" "app" 1 =
    TenantConfig.Ok {| TenantConfig.Name := "app"; TenantConfig.Precision := "strict";
                       TenantConfig.CustomPrompt := "" |}) by reflexivity.
  split; [vm_compute; reflexivity|]. split; [exact H|].
  destruct (TenantExtraFacts.GetRepositoryConfig_provenance sample_db "acme" "app" 1 _
             ltac:(vm_compute; reflexivity) H)
    as [inst [o [r [H1 [H2 _]]]]].
  exists inst. split; assumption.
Defined.

Lemma checkPRSize_messages_witness :
  SizeGate.ShouldReview (SizeGate.checkPRSize wide_sizes) = true /\
  SizeGate.SkipMessage (SizeGate.checkPRSize wide_sizes) = "".
Proof.
  split; [reflexivity|].
  exact (proj1 (proj2 (SizeExtraFacts.checkPRSize_messages wide_sizes) eq_refl)).
Defined.

End ExtraWitnesses.
